(** * Jira components without a lead: pagination planner, response
      validation, tracker client and aggregation

    A shallow embedding of [createPaginationChunks.ts], [JiraAPI.ts] and
    of [getJiraComponentsWithoutLead] in [app.ts], followed by the
    properties established about them.

    Conventions of the embedding:
    - a JavaScript [number] is an exact rational, [NaN] or an infinity
      (every double is one of these); once [Number.isSafeInteger] has
      accepted a value the arithmetic is carried out on its integer
      value in [Z];
    - exceptions and rejected promises are the [Err] side of [Result];
    - the network is a function from the request URL to the reply (the
      requests of one run differ pairwise, so nothing is lost), and
      every request that is sent is appended to a log;
    - the one [URL] object of [getIssuesByComponents] is threaded
      explicitly through the callbacks that mutate it;
    - what is the engine's and the platform's is a parameter: the
      length from which [Array.from] gives up ([array_limit]) and the
      URL constructor ([new_URL]);
    - the order in which the page requests of the fan-out settle is a
      parameter ([order]) of the operation. *)

From Stdlib Require Import ZArith QArith Lia List String DecimalString
  Permutation.
From stdpp Require Import gmap strings list pretty.

#[local] Set Warnings "-register-all".

Open Scope Z_scope.

(* ================================================================== *)
(** ** JavaScript numbers *)
(* ================================================================== *)

Inductive number : Type :=
| Finite (q : Q)
| NaN
| Infinity (negative : bool).

Definition of_Z (z : Z) : number := Finite (inject_Z z).

Definition MAX_SAFE_INTEGER : Z := 2 ^ 53 - 1.

Definition Number_isInteger (x : number) : bool :=
  match x with
  | Finite q => Z.rem (Qnum q) (Zpos (Qden q)) =? 0
  | _ => false
  end.

(** The integer value of an integral number (its truncation otherwise). *)
Definition to_Z (x : number) : Z :=
  match x with
  | Finite q => Z.quot (Qnum q) (Zpos (Qden q))
  | _ => 0
  end.

Definition Number_isSafeInteger (x : number) : bool :=
  Number_isInteger x && (Z.abs (to_Z x) <=? MAX_SAFE_INTEGER).

(** [x <= y] and [x < y] of JavaScript: false as soon as one side is NaN. *)
Definition number_leb (x y : number) : bool :=
  match x, y with
  | NaN, _ | _, NaN => false
  | Finite p, Finite q => Qle_bool p q
  | Infinity true, _ => true
  | _, Infinity false => true
  | _, _ => false
  end.

Definition number_ltb (x y : number) : bool :=
  match x, y with
  | NaN, _ | _, NaN => false
  | Finite p, Finite q => negb (Qle_bool q p)
  | Infinity true, Infinity true => false
  | Infinity true, _ => true
  | Infinity false, _ => false
  | Finite _, Infinity negative => negb negative
  end.

(** [String(n)] for an integer below 10^21: plain decimal digits. *)
Definition String_of_integer (z : Z) : string := pretty z.

(* ================================================================== *)
(** ** Values received from the network, URLs and errors *)
(* ================================================================== *)

(** What [res.json()] yields: the parsed value, each object listing its
    own properties (a key occurs once). *)
Inductive JSValue : Type :=
| JNull
| JBoolean (b : bool)
| JNumber (n : number)
| JString (s : string)
| JArray (elements : list JSValue)
| JObject (properties : list (string * JSValue)).

(** [obj[key]], [None] standing for [undefined]. *)
Fixpoint get_property (key : string) (properties : list (string * JSValue))
  : option JSValue :=
  match properties with
  | [] => None
  | (k, v) :: rest => if String.eqb k key then Some v else get_property key rest
  end.

(** A [URL] object: what precedes the query, and its [searchParams]. *)
Record URL : Type := mkURL {
  origin_and_path : string;
  searchParams : list (string * string)
}.

Fixpoint remove_params (name : string) (params : list (string * string))
  : list (string * string) :=
  match params with
  | [] => []
  | (k, v) :: rest =>
      if String.eqb k name then remove_params name rest
      else (k, v) :: remove_params name rest
  end.

(** [URLSearchParams.prototype.set]: the first pair named [name] takes
    the value and the other pairs of that name go; without such a pair
    the new one is appended. *)
Fixpoint params_set (name value : string) (params : list (string * string))
  : list (string * string) :=
  match params with
  | [] => [(name, value)]
  | (k, v) :: rest =>
      if String.eqb k name then (k, value) :: remove_params name rest
      else (k, v) :: params_set name value rest
  end.

Fixpoint params_get (name : string) (params : list (string * string))
  : option string :=
  match params with
  | [] => None
  | (k, v) :: rest => if String.eqb k name then Some v else params_get name rest
  end.

(** [url.searchParams.set(name, value)], as the new content of [url]. *)
Definition searchParams_set (url : URL) (name value : string) : URL :=
  {| origin_and_path := origin_and_path url;
     searchParams := params_set name value (searchParams url) |}.

(** The argument of [fetch] and the [url] field of [JiraResponseError]:
    [string | URL]. For a [URL] object the content is the one it has
    when the value is looked at. *)
Inductive UrlValue : Type :=
| UrlString (s : string)
| UrlObject (u : URL).

Inductive PathSegment : Type :=
| Key (k : string)
| Index (i : nat).

(** An [invalid_type] issue of a [ZodError]. *)
Record ZodIssue : Type := mkIssue {
  expected : string;
  received : string;
  path : list PathSegment
}.

Inductive Error : Type :=
| TypeError (message : string)
| RangeError (message : string)
| JiraResponseError (url : UrlValue) (status : Z) (message : string)
| ZodError (issues : list ZodIssue)
| TransportError (message : string).

Inductive Result (A : Type) : Type :=
| Ok (value : A)
| Err (error : Error).

Arguments Ok {A} value.
Arguments Err {A} error.

(* ================================================================== *)
(** ** createPaginationChunks *)
(* ================================================================== *)

Record PageWindow : Type := mkWindow {
  startAt : Z;
  pageSize : Z
}.

(** [Math.ceil(a / b)] for safe integers [a >= 0] and [b > 0]. The
    double quotient lies strictly between the same two consecutive
    integers as the exact one whenever the latter is not an integer
    (it is at least [1/b] away from both, more than half an ulp), so
    the result is the exact ceiling. *)
Definition Math_ceil_div (a b : Z) : Z := - ((- a) / b).

(** The largest [length] the language allows an [Array] to have. How
    long an array an engine really builds is up to the engine; it is
    never more than this. *)
Definition MAX_ARRAY_LENGTH : Z := 2 ^ 32 - 1.

(** [Array.from({ length: n })], as the list of its indices. *)
Definition indices (n : Z) : list Z := map Z.of_nat (seq 0 (Z.to_nat n)).

(* ================================================================== *)
(** ** Response schemas (zod) *)
(* ================================================================== *)

Module Lead.
Record t : Type := mk { accountId : string; displayName : string }.
End Lead.

Module Component.
Record t : Type := mk { id : string; name : string; lead : option Lead.t }.
End Component.

Module IssueComponent.
Record t : Type := mk { id : string; name : string }.
End IssueComponent.

Module Fields.
Record t : Type := mk { components : list IssueComponent.t }.
End Fields.

Module Issue.
Record t : Type := mk { id : string; fields : Fields.t }.
End Issue.

Module IssuePage.
Record t : Type := mk {
  startAt : number;
  maxResults : number;
  total : number;
  issues : list Issue.t
}.
End IssuePage.

Abbreviation GetComponentsResponse := (list Component.t).
Abbreviation GetIssuesByComponentsResponse := IssuePage.t.

(** The outcome of [safeParse]: the typed data, or every issue found. *)
Inductive SafeParse (A : Type) : Type :=
| Success (data : A)
| Failure (issues : list ZodIssue).

Arguments Success {A} data.
Arguments Failure {A} issues.

(** A schema, applied at a path to a value or to [undefined] ([None]). *)
Definition ZodType (A : Type) : Type :=
  list PathSegment -> option JSValue -> SafeParse A.

Definition getParsedType (v : option JSValue) : string :=
  match v with
  | None => "undefined"
  | Some JNull => "null"
  | Some (JBoolean _) => "boolean"
  | Some (JNumber NaN) => "nan"
  | Some (JNumber _) => "number"
  | Some (JString _) => "string"
  | Some (JArray _) => "array"
  | Some (JObject _) => "object"
  end.

Definition invalid_type {A} (expected : string) (path : list PathSegment)
  (v : option JSValue) : SafeParse A :=
  Failure [mkIssue expected (getParsedType v) path].

Definition z_string : ZodType string :=
  fun path v =>
    match v with
    | Some (JString s) => Success s
    | _ => invalid_type "string" path v
    end.

Definition z_number : ZodType number :=
  fun path v =>
    match v with
    | Some (JNumber NaN) => invalid_type "number" path v
    | Some (JNumber n) => Success n
    | _ => invalid_type "number" path v
    end.

Definition z_optional {A} (inner : ZodType A) : ZodType (option A) :=
  fun path v =>
    match v with
    | None => Success None
    | Some _ =>
        match inner path v with
        | Success a => Success (Some a)
        | Failure issues => Failure issues
        end
    end.

(** Two parts of one value: the issues of both are reported. *)
Definition merge {A B} (a : SafeParse A) (b : SafeParse B) : SafeParse (A * B) :=
  match a, b with
  | Success x, Success y => Success (x, y)
  | Failure i, Success _ => Failure i
  | Success _, Failure j => Failure j
  | Failure i, Failure j => Failure (i ++ j)
  end.

Definition transform {A B} (f : A -> B) (a : SafeParse A) : SafeParse B :=
  match a with
  | Success x => Success (f x)
  | Failure i => Failure i
  end.

Fixpoint parse_elements {A} (inner : ZodType A) (path : list PathSegment)
  (i : nat) (elements : list JSValue) : SafeParse (list A) :=
  match elements with
  | [] => Success []
  | e :: rest =>
      transform (fun p => fst p :: snd p)
        (merge (inner (path ++ [Index i]) (Some e))
               (parse_elements inner path (S i) rest))
  end.

Definition z_array {A} (inner : ZodType A) : ZodType (list A) :=
  fun path v =>
    match v with
    | Some (JArray elements) => parse_elements inner path 0%nat elements
    | _ => invalid_type "array" path v
    end.

(** [z.object(shape)]: the value has to be an object; each key of the
    shape is read from it (keys outside the shape are dropped). *)
Definition z_object {A}
  (shape : list PathSegment -> list (string * JSValue) -> SafeParse A)
  : ZodType A :=
  fun path v =>
    match v with
    | Some (JObject properties) => shape path properties
    | _ => invalid_type "object" path v
    end.

Definition field {A} (key : string) (schema : ZodType A)
  (path : list PathSegment) (properties : list (string * JSValue))
  : SafeParse A :=
  schema (path ++ [Key key]) (get_property key properties).

Definition LeadSchema : ZodType Lead.t :=
  z_object (fun path o =>
    transform (fun p => Lead.mk (fst p) (snd p))
      (merge (field "accountId" z_string path o)
             (field "displayName" z_string path o))).

Definition ComponentSchema : ZodType Component.t :=
  z_object (fun path o =>
    transform (fun p => Component.mk (fst (fst p)) (snd (fst p)) (snd p))
      (merge (merge (field "id" z_string path o)
                    (field "name" z_string path o))
             (field "lead" (z_optional LeadSchema) path o))).

Definition GetComponentsResponseSchema : ZodType GetComponentsResponse :=
  z_array ComponentSchema.

Definition IssueComponentSchema : ZodType IssueComponent.t :=
  z_object (fun path o =>
    transform (fun p => IssueComponent.mk (fst p) (snd p))
      (merge (field "id" z_string path o)
             (field "name" z_string path o))).

Definition FieldsSchema : ZodType Fields.t :=
  z_object (fun path o =>
    transform Fields.mk
      (field "components" (z_array IssueComponentSchema) path o)).

Definition IssueSchema : ZodType Issue.t :=
  z_object (fun path o =>
    transform (fun p => Issue.mk (fst p) (snd p))
      (merge (field "id" z_string path o)
             (field "fields" FieldsSchema path o))).

Definition GetIssuesByComponentsResponseSchema
  : ZodType GetIssuesByComponentsResponse :=
  z_object (fun path o =>
    transform
      (fun p => IssuePage.mk (fst (fst (fst p))) (snd (fst (fst p)))
                             (snd (fst p)) (snd p))
      (merge (merge (merge (field "startAt" z_number path o)
                           (field "maxResults" z_number path o))
                    (field "total" z_number path o))
             (field "issues" (z_array IssueSchema) path o))).

(** [schema.parse(json)]: the data, or a thrown [ZodError]. *)
Definition parse {A} (schema : ZodType A) (json : JSValue) : Result A :=
  match schema [] (Some json) with
  | Success data => Ok data
  | Failure issues => Err (ZodError issues)
  end.

(* ================================================================== *)
(** ** The network and the promises *)
(* ================================================================== *)

Record Response : Type := mkResponse {
  status : Z;
  statusText : string;
  body : option JSValue          (* [None]: the body is not JSON text *)
}.

(** What becomes of a request: a response, or no response at all (the
    promise of [fetch] is then rejected by the HTTP library). *)
Inductive Reply : Type :=
| Replied (res : Response)
| Unreachable (reason : string).

(** Computations that send requests and may throw: the log of the
    requests sent so far is threaded through. *)
Definition IO (A : Type) : Type :=
  list UrlValue -> Result A * list UrlValue.

Definition ret {A} (a : A) : IO A := fun log => (Ok a, log).

Definition throw {A} (e : Error) : IO A := fun log => (Err e, log).

Definition lift {A} (r : Result A) : IO A := fun log => (r, log).

Definition bind {A B} (m : IO A) (k : A -> IO B) : IO B :=
  fun log =>
    match m log with
    | (Ok a, log') => k a log'
    | (Err e, log') => (Err e, log')
    end.

Notation "x <- m ;; k" := (bind m (fun x => k))
  (at level 100, m at next level, right associativity).

(** [res.json()]. *)
Definition Response_json (res : Response) : Result JSValue :=
  match body res with
  | Some json => Ok json
  | None => Err (TransportError "invalid json response body")
  end.

(** [Promise.all(promises)], the promises settling in the order
    [order ++ [0; ...; n-1]] (an index counts at its first occurrence,
    so that every list denotes a completion order and every completion
    order is denoted by itself): rejected with the reason of the first
    promise found rejected, otherwise fulfilled with the values in the
    order of the array. *)
Fixpoint first_rejection {A} (order : list nat) (settled : list (Result A))
  : option Error :=
  match order with
  | [] => None
  | i :: rest =>
      match nth_error settled i with
      | Some (Err e) => Some e
      | _ => first_rejection rest settled
      end
  end.

Definition fulfilled_values {A} (settled : list (Result A)) : list A :=
  flat_map (fun r => match r with Ok v => [v] | Err _ => [] end) settled.

Definition Promise_all {A} (settled : list (Result A)) (order : list nat)
  : Result (list A) :=
  match first_rejection (order ++ seq 0 (length settled)) settled with
  | Some e => Err e
  | None => Ok (fulfilled_values settled)
  end.

(* ================================================================== *)
(** ** The entries of the report and the counting loop *)
(* ================================================================== *)

Module Entry.
Record t : Type := mk { id : string; name : string; issues : nat }.
End Entry.

(** The inner loop: one [set] per component of the issue. *)
Definition count_components (counts : gmap string nat)
  (components : list IssueComponent.t) : gmap string nat :=
  fold_left
    (fun m component =>
       <[IssueComponent.id component :=
           (default 0 (m !! IssueComponent.id component) + 1)%nat]> m)
    components counts.

Definition issuesCountByComponentId (issues : list Issue.t) : gmap string nat :=
  fold_left
    (fun m issue => count_components m (Fields.components (Issue.fields issue)))
    issues ∅.

Definition without_lead (component : Component.t) : bool :=
  match Component.lead component with
  | Some _ => false
  | None => true
  end.

Definition report (componentsWithoutLead : list Component.t)
  (issues : list Issue.t) : list Entry.t :=
  let counts := issuesCountByComponentId issues in
  map (fun component =>
         Entry.mk (Component.id component) (Component.name component)
                  (default 0%nat (counts !! Component.id component)))
      componentsWithoutLead.

(* ================================================================== *)
(** ** JiraAPI *)
(* ================================================================== *)

(** The configuration of the client; [baseUrl] is an absolute URL, the
    address of the tracker. *)
Record Config : Type := mkConfig {
  baseUrl : string;
  projectId : string
}.

(** The engine that runs the code. Its [Array.from] throws [RangeError]
    for a length above [MAX_ARRAY_LENGTH], as the language demands, and
    above [array_limit], the longest array the engine itself builds (a
    matter of its representation of arrays). Everything from here on
    holds for every such limit. A heap that is exhausted before that
    limit is reached ends the process and is not part of the model. *)
Section Engine.

Variable array_limit : Z.

(** [new URL(address)] for an absolute URL: the object the platform
    makes of it, with the address in the platform's normal form and the
    parameters of the query the address came with. Nothing is assumed
    of it. (For a string that is no absolute URL the constructor
    throws; the base URL of a configuration is an absolute URL.) *)
Variable new_URL : string -> URL.

(** The longest array [Array.from] builds. *)
Definition longest_array : Z := Z.min MAX_ARRAY_LENGTH array_limit.

Definition createPaginationChunks (pageSize total : number)
  : Result (list PageWindow) :=
  if negb (Number_isSafeInteger pageSize) || number_leb pageSize (of_Z 0) then
    Err (TypeError "Option 'pageSize' needs to be a positive safe integer.")
  else if negb (Number_isSafeInteger total) || number_ltb total (of_Z 0) then
    Err (TypeError "Option 'total' needs to be a non-negative safe integer.")
  else
    let P := to_Z pageSize in
    let T := to_Z total in
    let pageCount := Math_ceil_div T P in
    let lastPageSize := T - P * (pageCount - 1) in
    if longest_array <? pageCount then
      Err (RangeError "Invalid array length")
    else
      Ok (map (fun index =>
                 {| startAt := index * P;
                    pageSize := if index =? pageCount - 1
                                then lastPageSize else P |})
              (indices pageCount)).

Section JiraAPI.

Variable network : UrlValue -> Reply.
Variable config : Config.

(** The request leaves; its reply is whatever the network gives. *)
Definition send (url : UrlValue) : IO Reply :=
  fun log => (Ok (network url), log ++ [url]).

(** [await fetch(url)]. *)
Definition fetch (url : UrlValue) : IO Response :=
  reply <- send url ;;
  match reply with
  | Replied res => ret res
  | Unreachable reason => throw (TransportError reason)
  end.

Definition getComponents : IO GetComponentsResponse :=
  let url :=
    baseUrl config +:+ "/rest/api/3/project/" +:+ projectId config
    +:+ "/components" in
  res <- fetch (UrlString url) ;;
  if negb (status res =? 200) then
    throw (JiraResponseError (UrlString url) (status res) (statusText res))
  else
    json <- lift (Response_json res) ;;
    lift (parse GetComponentsResponseSchema json).

(** The callback given to [.map], up to its [await fetch(url)]: it
    writes its window into the URL object it shares with its siblings,
    sends the request and is suspended. The new content of the URL
    object is returned with the pending reply. *)
Definition page_request (url : URL) (window : PageWindow) : IO (URL * Reply) :=
  let url := searchParams_set url "startAt" (String_of_integer (startAt window)) in
  let url := searchParams_set url "maxResults" (String_of_integer (pageSize window)) in
  reply <- send (UrlObject url) ;;
  ret (url, reply).

(** [.map(async ...)]: the callbacks run one after the other, each up
    to its suspension. *)
Fixpoint map_page_requests (url : URL) (windows : list PageWindow)
  : IO (URL * list Reply) :=
  match windows with
  | [] => ret (url, [])
  | window :: rest =>
      sent <- page_request url window ;;
      others <- map_page_requests (fst sent) rest ;;
      ret (fst others, snd sent :: snd others)
  end.

(** The callback from its resumption on; [url] is the URL object as it
    is by then. *)
Definition page_resume (url : URL) (reply : Reply) : Result (list Issue.t) :=
  match reply with
  | Unreachable reason => Err (TransportError reason)
  | Replied res =>
      if negb (status res =? 200) then
        Err (JiraResponseError (UrlObject url) (status res) (statusText res))
      else
        match Response_json res with
        | Err e => Err e
        | Ok json =>
            match parse GetIssuesByComponentsResponseSchema json with
            | Err e => Err e
            | Ok data => Ok (IssuePage.issues data)
            end
        end
  end.

Definition initialMaxResults : string := "10000".

(** The URL of the first request. *)
Definition search_url (componentIds : list string) : URL :=
  let url := new_URL (baseUrl config +:+ "/rest/api/3/search") in
  let url := searchParams_set url "startAt" "0" in
  let url := searchParams_set url "maxResults" initialMaxResults in
  let url := searchParams_set url "validateQuery" "strict" in
  let url := searchParams_set url "fields" "id,components" in
  searchParams_set url "jql"
    ("project = " +:+ projectId config +:+ " AND component IN ("
     +:+ String.concat ", " componentIds +:+ ")").

Definition getIssuesByComponents (componentIds : list string)
  (order : list nat) : IO (list Issue.t) :=
  let url := search_url componentIds in
  firstRes <- fetch (UrlObject url) ;;
  if negb (status firstRes =? 200) then
    throw (JiraResponseError (UrlObject url) (status firstRes)
                             (statusText firstRes))
  else
    firstJson <- lift (Response_json firstRes) ;;
    firstData <- lift (parse GetIssuesByComponentsResponseSchema firstJson) ;;
    let firstIssueBatch := IssuePage.issues firstData in
    chunks <- lift (createPaginationChunks (IssuePage.maxResults firstData)
                                           (IssuePage.total firstData)) ;;
    let restIssueBatchesPagination := tail chunks in
    pending <- map_page_requests url restIssueBatchesPagination ;;
    let settled := map (page_resume (fst pending)) (snd pending) in
    restIssueBatches <- lift (Promise_all settled order) ;;
    ret (concat (firstIssueBatch :: restIssueBatches)).

End JiraAPI.

(* ================================================================== *)
(** ** getJiraComponentsWithoutLead *)
(* ================================================================== *)

Definition getJiraComponentsWithoutLead (network : UrlValue -> Reply)
  (baseUrl projectId : string) (order : list nat) : IO (list Entry.t) :=
  let api := mkConfig baseUrl projectId in
  components <- getComponents network api ;;
  let componentsWithoutLead := List.filter without_lead components in
  if (length componentsWithoutLead =? 0)%nat then ret []
  else
    issues <- getIssuesByComponents network api
                (map Component.id componentsWithoutLead) order ;;
    ret (report componentsWithoutLead issues).

(* ================================================================== *)
(** ** Notions used in the statements *)
(* ================================================================== *)

(** [x] is the integer [z] (whatever fraction represents it). *)
Definition is_integer_value (x : number) (z : Z) : Prop :=
  Number_isInteger x = true /\ to_Z x = z.

(** [windows] cover [start, stop) from left to right: each one begins
    where the previous one ended, none is empty, the last ends at
    [stop]. *)
Fixpoint tiles (start : Z) (windows : list PageWindow) (stop : Z) : Prop :=
  match windows with
  | [] => start = stop
  | w :: rest =>
      startAt w = start /\ 0 < pageSize w /\ tiles (start + pageSize w) rest stop
  end.

Definition sum_of_sizes (windows : list PageWindow) : Z :=
  fold_right Z.add 0 (map pageSize windows).

(** The window the planner builds at [index], for [pageCount] pages. *)
Definition chunk (P T pageCount index : Z) : PageWindow :=
  {| startAt := index * P;
     pageSize := if index =? pageCount - 1
                 then T - P * (pageCount - 1) else P |}.

(** The component-list shape of the data model: an array of objects
    with a string [id], a string [name] and, when present, a [lead]
    object with strings [accountId] and [displayName]. *)
Definition is_string (v : option JSValue) : bool :=
  match v with Some (JString _) => true | _ => false end.

Definition is_lead (v : JSValue) : bool :=
  match v with
  | JObject o => is_string (get_property "accountId" o)
                 && is_string (get_property "displayName" o)
  | _ => false
  end.

Definition is_component (v : JSValue) : bool :=
  match v with
  | JObject o =>
      is_string (get_property "id" o) && is_string (get_property "name" o)
      && match get_property "lead" o with
         | None => true
         | Some l => is_lead l
         end
  | _ => false
  end.

Definition is_component_list (v : JSValue) : bool :=
  match v with
  | JArray elements => forallb is_component elements
  | _ => false
  end.

(** The fields of the data model, read off a conforming value. *)
Definition string_of (v : option JSValue) : string :=
  match v with Some (JString s) => s | _ => "" end.

Definition properties_of (v : JSValue) : list (string * JSValue) :=
  match v with JObject o => o | _ => [] end.

Definition lead_of (v : JSValue) : Lead.t :=
  Lead.mk (string_of (get_property "accountId" (properties_of v)))
          (string_of (get_property "displayName" (properties_of v))).

Definition component_of (v : JSValue) : Component.t :=
  Component.mk (string_of (get_property "id" (properties_of v)))
               (string_of (get_property "name" (properties_of v)))
               (option_map lead_of (get_property "lead" (properties_of v))).

(** The address of the component list. *)
Definition components_url (config : Config) : UrlValue :=
  UrlString (baseUrl config +:+ "/rest/api/3/project/" +:+ projectId config
             +:+ "/components").

(** The search request for a window: the first request with its
    [startAt] and [maxResults] replaced. *)
Definition request_url (config : Config) (componentIds : list string)
  (startAt maxResults : string) : URL :=
  let url := new_URL (baseUrl config +:+ "/rest/api/3/search") in
  let url := searchParams_set url "startAt" startAt in
  let url := searchParams_set url "maxResults" maxResults in
  let url := searchParams_set url "validateQuery" "strict" in
  let url := searchParams_set url "fields" "id,components" in
  searchParams_set url "jql"
    ("project = " +:+ projectId config +:+ " AND component IN ("
     +:+ String.concat ", " componentIds +:+ ")").

(** The network answers the request [url] with status 200 and a valid
    page whose batch is [batch]. *)
Definition serves (network : UrlValue -> Reply) (url : URL)
  (batch : list Issue.t) : Prop :=
  exists res json data,
    network (UrlObject url) = Replied res /\ status res = 200 /\
    body res = Some json /\
    parse GetIssuesByComponentsResponseSchema json = Ok data /\
    IssuePage.issues data = batch.

(** The content of the URL object after a callback has written its
    window, and the requests the callbacks send, one after the other. *)
Definition with_window (url : URL) (window : PageWindow) : URL :=
  searchParams_set
    (searchParams_set url "startAt" (String_of_integer (startAt window)))
    "maxResults" (String_of_integer (pageSize window)).

Fixpoint page_urls (url : URL) (windows : list PageWindow) : list URL :=
  match windows with
  | [] => []
  | window :: rest =>
      with_window url window :: page_urls (with_window url window) rest
  end.

(** Promise [i] is the first one rejected, the promises settling in the
    order [order ++ [0; ...; n-1]]. *)
Definition first_rejected {A} (order : list nat) (settled : list (Result A))
  (i : nat) : Prop :=
  exists before after,
    order ++ seq 0 (length settled) = before ++ i :: after /\
    forall j, In j before -> forall e, nth_error settled j <> Some (Err e).

(** How often component [id] occurs in the component lists of the
    issues, and how many issues list it. *)
Definition component_ids (issue : Issue.t) : list string :=
  map IssueComponent.id (Fields.components (Issue.fields issue)).

Definition occurrences (id : string) (ids : list string) : nat :=
  length (List.filter (String.eqb id) ids).

Definition count_references (id : string) (issues : list Issue.t) : nat :=
  occurrences id (flat_map component_ids issues).

Definition count_issues_referencing (id : string) (issues : list Issue.t) : nat :=
  length (List.filter (fun issue => existsb (String.eqb id) (component_ids issue))
                      issues).

(** The JSON text of validated data, as a tracker would send it: the
    inverse direction of the schemas. *)
Definition encode_lead (l : Lead.t) : JSValue :=
  JObject [("accountId", JString (Lead.accountId l));
           ("displayName", JString (Lead.displayName l))].

Definition encode_component (c : Component.t) : JSValue :=
  JObject ([("id", JString (Component.id c));
            ("name", JString (Component.name c))]
           ++ match Component.lead c with
              | Some l => [("lead", encode_lead l)]
              | None => []
              end).

Definition encode_issue_component (c : IssueComponent.t) : JSValue :=
  JObject [("id", JString (IssueComponent.id c));
           ("name", JString (IssueComponent.name c))].

Definition encode_issue (issue : Issue.t) : JSValue :=
  JObject [("id", JString (Issue.id issue));
           ("fields",
            JObject [("components",
                      JArray (map encode_issue_component
                                  (Fields.components (Issue.fields issue))))])].

Definition encode_page (page : IssuePage.t) : JSValue :=
  JObject [("startAt", JNumber (IssuePage.startAt page));
           ("maxResults", JNumber (IssuePage.maxResults page));
           ("total", JNumber (IssuePage.total page));
           ("issues", JArray (map encode_issue (IssuePage.issues page)))].

(** Two values are objects with the same [id], [name] and [lead]. *)
Definition same_component_keys (v v' : JSValue) : Prop :=
  exists o o',
    v = JObject o /\ v' = JObject o' /\
    get_property "id" o = get_property "id" o' /\
    get_property "name" o = get_property "name" o' /\
    get_property "lead" o = get_property "lead" o'.

(** What the first reply leads to: the error that ends the operation
    there, or the first batch with the windows still to fetch. *)
Definition first_page_result (url : URL) (first : Reply)
  : Result (list Issue.t * list PageWindow) :=
  match first with
  | Unreachable reason => Err (TransportError reason)
  | Replied res =>
      if negb (status res =? 200) then
        Err (JiraResponseError (UrlObject url) (status res) (statusText res))
      else
        match Response_json res with
        | Err e => Err e
        | Ok json =>
            match parse GetIssuesByComponentsResponseSchema json with
            | Err e => Err e
            | Ok data =>
                match createPaginationChunks (IssuePage.maxResults data)
                                             (IssuePage.total data) with
                | Err e => Err e
                | Ok chunks => Ok (IssuePage.issues data, tail chunks)
                end
            end
        end
  end.

(** How the page requests for [windows] end, in the order of the
    windows. *)
Definition settled_pages (network : UrlValue -> Reply) (url : URL)
  (windows : list PageWindow) : list (Result (list Issue.t)) :=
  map (fun page =>
         page_resume (List.last (page_urls url windows) url)
                     (network (UrlObject page)))
      (page_urls url windows).

(** The names of the parameters of a URL, in order. *)
Definition param_names (url : URL) : list string :=
  map fst (searchParams url).

(** The [jql] sent for a list of component ids. *)
Definition jql_of (config : Config) (componentIds : list string) : string :=
  "project = " +:+ projectId config +:+ " AND component IN ("
  +:+ String.concat ", " componentIds +:+ ")".

(* ================================================================== *)
(** ** Mock networks, after the test suites *)
(* ================================================================== *)

Definition example_config : Config := mkConfig "https://xxx.atlassian.net" "XYZ".

(** An engine whose arrays hold up to [2^20] elements. *)
Definition example_array_limit : Z := 2 ^ 20.

(** The URL objects of the examples: their addresses are in normal form
    and come without a query, so that the constructor keeps the address
    and finds no parameter. *)
Definition example_new_URL (address : string) : URL :=
  {| origin_and_path := address; searchParams := [] |}.

(** A tracker behind a gateway that wants a parameter of its own in
    every address: the base URL comes with a query. *)
Definition gateway_new_URL (address : string) : URL :=
  {| origin_and_path := "https://gateway.example/jira/rest/api/3/search";
     searchParams := [("os_authType", "basic")] |}.

Definition example_issue (id component name : string) : JSValue :=
  JObject [("expand", JString "operations,versionedRepresentations");
           ("id", JString id);
           ("fields",
            JObject [("components",
                      JArray [JObject [("self", JString "https://xxx.atlassian.net");
                                       ("id", JString component);
                                       ("name", JString name)]])])].

Definition example_issues : list JSValue :=
  [example_issue "10600" "10131" "Templates";
   example_issue "10601" "10131" "Templates";
   example_issue "10602" "10128" "Synchronization";
   example_issue "10603" "10131" "Templates";
   example_issue "10604" "10130" "Backend";
   example_issue "10605" "10131" "Templates";
   example_issue "10606" "10128" "Synchronization";
   example_issue "10607" "10131" "Templates"].

(** The same issues once validated. *)
Definition validated_issue (id component name : string) : Issue.t :=
  Issue.mk id (Fields.mk [IssueComponent.mk component name]).

Definition validated_issues : list Issue.t :=
  [validated_issue "10600" "10131" "Templates";
   validated_issue "10601" "10131" "Templates";
   validated_issue "10602" "10128" "Synchronization";
   validated_issue "10603" "10131" "Templates";
   validated_issue "10604" "10130" "Backend";
   validated_issue "10605" "10131" "Templates";
   validated_issue "10606" "10128" "Synchronization";
   validated_issue "10607" "10131" "Templates"].

(** [Number(url.searchParams.get(name))] on decimal digits. *)
Definition Number_of_param (name : string) (url : URL) : Z :=
  match params_get name (searchParams url) with
  | Some digits =>
      match NilZero.int_of_string digits with
      | Some i => Z.of_int i
      | None => 0
      end
  | None => 0
  end.

Definition issue_page (startAt maxResults total : Z) (issues : list JSValue)
  : JSValue :=
  JObject [("startAt", JNumber (of_Z startAt));
           ("maxResults", JNumber (of_Z maxResults));
           ("total", JNumber (of_Z total));
           ("issues", JArray issues)].

(** The mock of "should be able to handle paginated responses": every
    search request is answered with the slice it asks for, clamped to
    [limit] issues. *)
Definition paginated_mock (limit : Z) (issues : list JSValue)
  : UrlValue -> Reply :=
  fun request =>
    match request with
    | UrlString _ => Unreachable "no mock"
    | UrlObject url =>
        let startAt := Number_of_param "startAt" url in
        let clampedMaxResults := Z.min limit (Number_of_param "maxResults" url) in
        Replied
          (mkResponse 200 "OK"
             (Some (issue_page startAt limit (Z.of_nat (length issues))
                      (firstn (Z.to_nat clampedMaxResults)
                              (skipn (Z.to_nat startAt) issues)))))
    end.

(** A tracker whose first page announces three pages of two issues; the
    page at 2 is answered with [second] and the later one with [third]. *)
Definition three_page_mock (second third : Response) : UrlValue -> Reply :=
  fun request =>
    match request with
    | UrlString _ => Unreachable "no mock"
    | UrlObject url =>
        let startAt := Number_of_param "startAt" url in
        if startAt =? 0 then
          Replied (mkResponse 200 "OK"
                     (Some (issue_page 0 2 6 (firstn 2 example_issues))))
        else if startAt =? 2 then Replied second
        else Replied third
    end.

(** A tracker with the given component list and a single page of
    issues. *)
Definition single_page_mock (components : JSValue) (issues : list JSValue)
  : UrlValue -> Reply :=
  fun request =>
    match request with
    | UrlString _ => Replied (mkResponse 200 "OK" (Some components))
    | UrlObject _ =>
        Replied (mkResponse 200 "OK"
                   (Some (issue_page 0 100 (Z.of_nat (length issues)) issues)))
    end.

Definition component_C1 : JSValue :=
  JObject [("id", JString "C1"); ("name", JString "Backend")].

Definition component_C2 : JSValue :=
  JObject [("id", JString "C2"); ("name", JString "Frontend");
           ("lead", JObject [("accountId", JString "5d9b");
                             ("displayName", JString "Dana")])].

Definition bad_request : Response := mkResponse 400 "Bad Request" None.

Definition wrong_shape : Response :=
  mkResponse 200 "OK" (Some (JObject [("abc", JString "xyz")])).

(** A reply whose body is not JSON text, such as the page of a proxy. *)
Definition not_json : Response := mkResponse 200 "OK" None.

Definition last_page : Response :=
  mkResponse 200 "OK"
    (Some (issue_page 4 2 6 (firstn 2 (skipn 4 example_issues)))).

(* ================================================================== *)
(** * Properties *)
(* ================================================================== *)

(** ** Numbers *)

Lemma to_Z_of_Z z : to_Z (of_Z z) = z.
Proof. unfold to_Z, of_Z; simpl. apply Z.quot_1_r. Qed.

Lemma isInteger_of_Z z : Number_isInteger (of_Z z) = true.
Proof. unfold Number_isInteger, of_Z; simpl. rewrite Z.rem_1_r. reflexivity. Qed.

Lemma isSafeInteger_isInteger x :
  Number_isSafeInteger x = true -> Number_isInteger x = true.
Proof. unfold Number_isSafeInteger. intros H. apply andb_true_iff in H. tauto. Qed.

(** [Math_ceil_div] is the ceiling of the exact quotient. *)
Lemma Math_ceil_div_spec a b :
  0 < b ->
  b * (Math_ceil_div a b - 1) < a <= b * Math_ceil_div a b.
Proof.
  intros Hb. unfold Math_ceil_div.
  pose proof (Z.div_mod (- a) b ltac:(lia)) as Hdm.
  pose proof (Z.mod_pos_bound (- a) b Hb) as Hr.
  nia.
Qed.

Lemma Math_ceil_div_unique a b c :
  0 < b -> b * (c - 1) < a <= b * c -> Math_ceil_div a b = c.
Proof.
  intros Hb Hc. pose proof (Math_ceil_div_spec a b Hb) as Hs. nia.
Qed.

Lemma Math_ceil_div_nonneg a b : 0 < b -> 0 <= a -> 0 <= Math_ceil_div a b.
Proof. intros Hb Ha. pose proof (Math_ceil_div_spec a b Hb). nia. Qed.

Lemma Math_ceil_div_zero b : 0 < b -> Math_ceil_div 0 b = 0.
Proof. intros Hb. apply Math_ceil_div_unique; lia. Qed.

(** ** The planner *)

Ltac within_limit :=
  symmetry; apply Z.ltb_ge; unfold longest_array, MAX_ARRAY_LENGTH in *; lia.

Lemma is_integer_value_of_Z z : is_integer_value (of_Z z) z.
Proof. split; [apply isInteger_of_Z | apply to_Z_of_Z]. Qed.

Lemma integer_numerator q :
  Z.rem (Qnum q) (Zpos (Qden q)) = 0 ->
  Qnum q = Zpos (Qden q) * Z.quot (Qnum q) (Zpos (Qden q)).
Proof.
  intros Hr. pose proof (Z.quot_rem' (Qnum q) (Zpos (Qden q))) as H. lia.
Qed.

Lemma leb_zero_integer x z :
  is_integer_value x z -> number_leb x (of_Z 0) = (z <=? 0).
Proof.
  intros [Hi Hz]. destruct x as [q | | neg]; try discriminate.
  simpl in Hi, Hz. apply Z.eqb_eq in Hi. apply integer_numerator in Hi.
  unfold number_leb, of_Z, Qle_bool; simpl. rewrite Z.mul_1_r.
  destruct (Z.leb_spec (Qnum q) 0), (Z.leb_spec z 0); try reflexivity; nia.
Qed.

Lemma ltb_zero_integer x z :
  is_integer_value x z -> number_ltb x (of_Z 0) = (z <? 0).
Proof.
  intros [Hi Hz]. destruct x as [q | | neg]; try discriminate.
  simpl in Hi, Hz. apply Z.eqb_eq in Hi. apply integer_numerator in Hi.
  unfold number_ltb, of_Z, Qle_bool; simpl. rewrite Z.mul_1_r.
  destruct (Z.leb_spec 0 (Qnum q)), (Z.ltb_spec z 0); try reflexivity; nia.
Qed.

Lemma isSafeInteger_integer x z :
  is_integer_value x z ->
  Number_isSafeInteger x = (Z.abs z <=? MAX_SAFE_INTEGER).
Proof.
  intros [Hi Hz]. unfold Number_isSafeInteger. rewrite Hi, Hz. reflexivity.
Qed.

(** On safe integers the two guards pass, and the planner is its last
    branch. *)
Lemma createPaginationChunks_safe x y P T :
  is_integer_value x P -> is_integer_value y T ->
  0 < P <= MAX_SAFE_INTEGER -> 0 <= T <= MAX_SAFE_INTEGER ->
  createPaginationChunks x y
  = if longest_array <? Math_ceil_div T P
    then Err (RangeError "Invalid array length")
    else Ok (map (chunk P T (Math_ceil_div T P))
                 (indices (Math_ceil_div T P))).
Proof.
  intros Hx Hy HP HT. unfold createPaginationChunks.
  rewrite (isSafeInteger_integer x P Hx), (isSafeInteger_integer y T Hy).
  rewrite (leb_zero_integer x P Hx), (ltb_zero_integer y T Hy).
  destruct Hx as [_ ->], Hy as [_ ->].
  replace (Z.abs P <=? MAX_SAFE_INTEGER) with true by (symmetry; apply Z.leb_le; lia).
  replace (P <=? 0) with false by (symmetry; apply Z.leb_gt; lia).
  replace (Z.abs T <=? MAX_SAFE_INTEGER) with true by (symmetry; apply Z.leb_le; lia).
  replace (T <? 0) with false by (symmetry; apply Z.ltb_ge; lia).
  reflexivity.
Qed.

Lemma length_indices n : 0 <= n -> Z.of_nat (length (indices n)) = n.
Proof.
  intros Hn. unfold indices. rewrite length_map, length_seq. lia.
Qed.

Lemma nth_error_indices n i :
  (i < Z.to_nat n)%nat -> nth_error (indices n) i = Some (Z.of_nat i).
Proof.
  intros Hi. unfold indices. rewrite nth_error_map.
  rewrite nth_error_seq. destruct (Nat.ltb_spec i (Z.to_nat n)); [reflexivity | lia].
Qed.

(** The windows built for the indices [a, a + len), when these are the
    last indices below [c], tile from [a * P] to [T]. *)
Lemma tiles_chunks P T c len : forall a,
  0 < P -> P * (c - 1) < T ->
  Z.of_nat a + Z.of_nat (S len) = c ->
  tiles (Z.of_nat a * P)
        (map (chunk P T c) (map Z.of_nat (seq a (S len)))) T.
Proof.
  induction len as [| len IH]; intros a HP HT Hc.
  - simpl. replace (Z.of_nat a =? c - 1) with true by (symmetry; apply Z.eqb_eq; lia).
    repeat split; nia.
  - cbn [seq map tiles chunk startAt pageSize].
    replace (Z.of_nat a =? c - 1) with false by (symmetry; apply Z.eqb_neq; lia).
    split; [reflexivity |]. split; [lia |].
    replace (Z.of_nat a * P + P) with (Z.of_nat (S a) * P) by lia.
    apply IH; lia.
Qed.

Lemma tiles_sum start windows stop :
  tiles start windows stop -> start + sum_of_sizes windows = stop.
Proof.
  revert start. induction windows as [| w rest IH]; intros start H.
  - simpl in H. unfold sum_of_sizes; simpl. lia.
  - destruct H as (_ & _ & H). apply IH in H.
    unfold sum_of_sizes in *; simpl. lia.
Qed.

Lemma planner_tiles P T :
  0 < P -> 0 <= T ->
  tiles 0 (map (chunk P T (Math_ceil_div T P)) (indices (Math_ceil_div T P))) T.
Proof.
  intros HP HT.
  pose proof (Math_ceil_div_spec T P HP) as Hs.
  pose proof (Math_ceil_div_nonneg T P HP HT) as Hc.
  unfold indices.
  destruct (Z.to_nat (Math_ceil_div T P)) as [| len] eqn:Hn.
  - simpl. nia.
  - apply (tiles_chunks P T (Math_ceil_div T P) len 0%nat); lia.
Qed.

Lemma nth_error_chunks P T c i w :
  nth_error (map (chunk P T c) (indices c)) i = Some w ->
  w = chunk P T c (Z.of_nat i) /\ Z.of_nat i < c.
Proof.
  intros H. rewrite nth_error_map in H.
  destruct (nth_error (indices c) i) as [z |] eqn:Hz; [| discriminate].
  assert (Hlt : (i < length (indices c))%nat)
    by (apply nth_error_Some; congruence).
  unfold indices in Hlt. rewrite length_map, length_seq in Hlt.
  rewrite nth_error_indices in Hz by exact Hlt.
  injection Hz as <-. injection H as <-. split; [reflexivity | lia].
Qed.

(** C2, amended: take a positive safe integer page size [P] and a
    non-negative safe integer total [T], with page count
    [c = ceil(T / P)]. When [c] is not more than the longest array the
    engine builds, the planner returns [c] windows that tile [0, T)
    from left to right without gap or overlap: window [i] starts at
    [i * P], every window but the last has size [P], the last has size
    [T - P * (c - 1)], the sizes sum to [T], and for [T = 0] the result
    is empty. When [c] is more than that, the planner returns nothing:
    it throws [RangeError]. *)
Theorem planner_tiles_total (x y : number) (P T c : Z) :
  is_integer_value x P -> is_integer_value y T ->
  0 < P <= MAX_SAFE_INTEGER -> 0 <= T <= MAX_SAFE_INTEGER ->
  P * (c - 1) < T <= P * c ->
  (c <= longest_array ->
   exists windows,
     createPaginationChunks x y = Ok windows /\
     Z.of_nat (length windows) = c /\
     tiles 0 windows T /\
     (forall i w, nth_error windows i = Some w ->
        startAt w = Z.of_nat i * P /\
        pageSize w = if Z.of_nat i =? c - 1 then T - P * (c - 1) else P) /\
     sum_of_sizes windows = T /\
     (T = 0 -> windows = [])) /\
  (longest_array < c ->
   exists message, createPaginationChunks x y = Err (RangeError message)).
Proof.
  intros Hx Hy HP HT Hc.
  assert (Hceil : Math_ceil_div T P = c)
    by (apply Math_ceil_div_unique; lia).
  rewrite (createPaginationChunks_safe x y P T Hx Hy HP HT), Hceil.
  split; [intros Hmax | intros Hmax; apply Z.ltb_lt in Hmax; rewrite Hmax; eauto].
  exists (map (chunk P T c) (indices c)).
  replace (longest_array <? c) with false by within_limit.
  assert (Hc0 : 0 <= c) by nia.
  assert (Htiles : tiles 0 (map (chunk P T c) (indices c)) T)
    by (rewrite <- Hceil; apply planner_tiles; lia).
  split; [reflexivity |]. split.
  { rewrite length_map. apply length_indices; exact Hc0. }
  split; [exact Htiles |]. split.
  { intros i w Hi. apply nth_error_chunks in Hi. destruct Hi as [-> _].
    split; reflexivity. }
  split.
  { apply tiles_sum in Htiles. lia. }
  intros HT0. assert (H0 : c = 0) by nia. rewrite H0. reflexivity.
Qed.

(** C4, amended: the planner throws [TypeError] whenever the page size
    is not an integer or is [<= 0], or the total is not an integer or
    is [< 0]; on a positive safe integer page size and a non-negative
    safe integer total it never throws [TypeError]: it returns windows
    when the page count [c = ceil(T / P)] is not more than the longest
    array the engine builds, and throws [RangeError] when it is. *)
Theorem planner_invalid_argument (pageSize total x y : number) (P T c : Z) :
  (number_leb pageSize (of_Z 0) = true \/ Number_isInteger pageSize = false \/
   number_ltb total (of_Z 0) = true \/ Number_isInteger total = false ->
   exists message,
     createPaginationChunks pageSize total = Err (TypeError message)) /\
  (is_integer_value x P -> is_integer_value y T ->
   0 < P <= MAX_SAFE_INTEGER -> 0 <= T <= MAX_SAFE_INTEGER ->
   P * (c - 1) < T <= P * c ->
   (forall message, createPaginationChunks x y <> Err (TypeError message)) /\
   (c <= longest_array ->
    exists windows, createPaginationChunks x y = Ok windows) /\
   (longest_array < c ->
    exists message, createPaginationChunks x y = Err (RangeError message))).
Proof.
  split.
  - intros H. unfold createPaginationChunks.
    destruct (negb (Number_isSafeInteger pageSize)
              || number_leb pageSize (of_Z 0)) eqn:Hp; [eauto |].
    destruct (negb (Number_isSafeInteger total)
              || number_ltb total (of_Z 0)) eqn:Ht; [eauto |].
    exfalso.
    apply orb_false_iff in Hp. destruct Hp as [Hp1 Hp2].
    apply orb_false_iff in Ht. destruct Ht as [Ht1 Ht2].
    apply negb_false_iff in Hp1. apply negb_false_iff in Ht1.
    apply isSafeInteger_isInteger in Hp1. apply isSafeInteger_isInteger in Ht1.
    destruct H as [H | [H | [H | H]]]; congruence.
  - intros Hx Hy HP HT Hc.
    assert (Hceil : Math_ceil_div T P = c)
      by (apply Math_ceil_div_unique; lia).
    rewrite (createPaginationChunks_safe x y P T Hx Hy HP HT), Hceil.
    split.
    + intros message. destruct (longest_array <? c); discriminate.
    + split; intros Hmax.
      * replace (longest_array <? c) with false by within_limit.
        eauto.
      * apply Z.ltb_lt in Hmax. rewrite Hmax. eauto.
Qed.

(** ** The component-list schema accepts exactly the shape *)

Ltac case_property :=
  match goal with
  | |- context [get_property ?k ?o] =>
      let v := fresh "v" in
      destruct (get_property k o) as [v |]; [destruct v |]
  end.

Ltac reject :=
  intros _; eexists; split; [| reflexivity]; discriminate.

Lemma LeadSchema_conforms path v :
  is_lead v = true -> LeadSchema path (Some v) = Success (lead_of v).
Proof.
  destruct v as [| | | | | o]; try discriminate.
  unfold is_lead, LeadSchema, lead_of, z_object, field, z_string; simpl.
  repeat case_property; simpl; try discriminate; reflexivity.
Qed.

Lemma LeadSchema_rejects path v :
  is_lead v = false ->
  exists issues, issues <> [] /\ LeadSchema path (Some v) = Failure issues.
Proof.
  destruct v as [| | | | | o];
    try (intros _; eexists; split; [| reflexivity]; discriminate).
  unfold is_lead, LeadSchema, z_object, field, z_string, invalid_type; simpl.
  repeat case_property; simpl; try discriminate; reject.
Qed.

Lemma ComponentSchema_conforms path v :
  is_component v = true ->
  ComponentSchema path (Some v) = Success (component_of v).
Proof.
  destruct v as [| | | | | o]; try discriminate.
  unfold is_component, ComponentSchema, component_of, z_object, field,
    z_optional; simpl.
  destruct (get_property "lead" o) as [l |].
  - destruct (is_lead l) eqn:Hl.
    + rewrite (LeadSchema_conforms _ l Hl).
      unfold z_string.
      repeat case_property; simpl; try discriminate; reflexivity.
    + rewrite andb_false_r. discriminate.
  - unfold z_string.
    repeat case_property; simpl; try discriminate; reflexivity.
Qed.

Lemma ComponentSchema_rejects path v :
  is_component v = false ->
  exists issues, issues <> [] /\ ComponentSchema path (Some v) = Failure issues.
Proof.
  destruct v as [| | | | | o];
    try (intros _; eexists; split; [| reflexivity]; discriminate).
  unfold is_component, ComponentSchema, z_object, field, z_optional; simpl.
  destruct (get_property "lead" o) as [l |].
  - destruct (is_lead l) eqn:Hl.
    + rewrite (LeadSchema_conforms _ l Hl).
      unfold z_string, invalid_type.
      repeat case_property; simpl; try discriminate; reject.
    + destruct (LeadSchema_rejects (path ++ [Key "lead"]) l Hl)
        as (issues & Hne & ->).
      intros _. unfold z_string, invalid_type.
      repeat case_property; simpl;
        (eexists; split; [| reflexivity]);
        try discriminate; try exact Hne;
        destruct issues; try discriminate; congruence.
  - unfold z_string, invalid_type.
    repeat case_property; simpl; try discriminate; reject.
Qed.

Lemma parse_components_conform path elements : forall i,
  forallb is_component elements = true ->
  parse_elements ComponentSchema path i elements
  = Success (map component_of elements).
Proof.
  induction elements as [| e rest IH]; intros i H; [reflexivity |].
  simpl in H. apply andb_true_iff in H. destruct H as [He Hrest].
  cbn [parse_elements map].
  rewrite (ComponentSchema_conforms _ e He), (IH _ Hrest). reflexivity.
Qed.

Lemma parse_components_reject path elements : forall i,
  forallb is_component elements = false ->
  exists issues,
    issues <> [] /\
    parse_elements ComponentSchema path i elements = Failure issues.
Proof.
  induction elements as [| e rest IH]; intros i H; [discriminate |].
  simpl in H. cbn [parse_elements].
  destruct (is_component e) eqn:He.
  - simpl in H. destruct (IH (S i) H) as (issues & Hne & ->).
    rewrite (ComponentSchema_conforms _ e He). simpl. eauto.
  - destruct (ComponentSchema_rejects (path ++ [Index i]) e He)
      as (issues & Hne & ->).
    destruct (parse_elements ComponentSchema path (S i) rest) as [l | more];
      simpl; eexists; (split; [| reflexivity]); try exact Hne.
    destruct issues; [congruence | discriminate].
Qed.

Lemma parse_component_list json :
  is_component_list json = true ->
  exists elements,
    json = JArray elements /\
    parse GetComponentsResponseSchema json = Ok (map component_of elements).
Proof.
  destruct json as [| | | | elements |]; try discriminate.
  intros H. exists elements. split; [reflexivity |].
  unfold parse, GetComponentsResponseSchema, z_array.
  simpl in H. rewrite (parse_components_conform [] elements 0%nat H).
  reflexivity.
Qed.

Lemma parse_not_component_list json :
  is_component_list json = false ->
  exists issues,
    issues <> [] /\
    parse GetComponentsResponseSchema json = Err (ZodError issues).
Proof.
  unfold parse, GetComponentsResponseSchema, z_array.
  destruct json as [| | | | elements |];
    try (intros _; eexists; split; [| reflexivity]; discriminate).
  intros H. simpl in H.
  destruct (parse_components_reject [] elements 0%nat H) as (issues & Hne & ->).
  eauto.
Qed.

(** ** Promise.all *)

Lemma first_rejection_Some {A} (settled : list (Result A)) e : forall order,
  first_rejection order settled = Some e ->
  exists i before after,
    order = before ++ i :: after /\
    nth_error settled i = Some (Err e) /\
    forall j, In j before -> forall e', nth_error settled j <> Some (Err e').
Proof.
  induction order as [| k rest IH]; intros H; [discriminate |].
  simpl in H.
  destruct (nth_error settled k) as [[v | e0] |] eqn:Hk.
  - destruct (IH H) as (i & before & after & -> & Hi & Hb).
    exists i, (k :: before), after. repeat split; [exact Hi |].
    intros j [<- | Hj] e'; [congruence | apply Hb; exact Hj].
  - injection H as <-. exists k, [], rest. repeat split; [exact Hk |].
    intros j [].
  - destruct (IH H) as (i & before & after & -> & Hi & Hb).
    exists i, (k :: before), after. repeat split; [exact Hi |].
    intros j [<- | Hj] e'; [congruence | apply Hb; exact Hj].
Qed.

Lemma first_rejection_In {A} (settled : list (Result A)) k e0 : forall order,
  In k order -> nth_error settled k = Some (Err e0) ->
  exists e, first_rejection order settled = Some e.
Proof.
  induction order as [| i rest IH]; intros Hin Hk; [destruct Hin |].
  simpl. destruct Hin as [-> | Hin].
  - rewrite Hk. eauto.
  - destruct (nth_error settled i) as [[v | e1] |]; eauto.
Qed.

Lemma first_rejection_None {A} (settled : list (Result A)) : forall order,
  (forall j e, nth_error settled j <> Some (Err e)) ->
  first_rejection order settled = None.
Proof.
  induction order as [| i rest IH]; intros H; [reflexivity |].
  simpl. destruct (nth_error settled i) as [[v | e] |] eqn:Hi; auto.
  exfalso. exact (H i e Hi).
Qed.

(** Fulfilled promises: the values, in the order of the array, whatever
    the completion order. *)
Lemma Promise_all_fulfilled {A} (values : list A) order :
  Promise_all (map Ok values) order = Ok values.
Proof.
  unfold Promise_all. rewrite first_rejection_None.
  - f_equal. unfold fulfilled_values.
    induction values as [| v rest IH]; [reflexivity |].
    simpl. rewrite IH. reflexivity.
  - intros j e Hj. rewrite nth_error_map in Hj.
    destruct (nth_error values j); discriminate.
Qed.

Lemma Promise_all_nil {A} order : Promise_all (@nil (Result A)) order = Ok [].
Proof. exact (Promise_all_fulfilled [] order). Qed.

(** One rejected promise: [Promise.all] is rejected, with the reason of
    the promise rejected first. *)
Lemma Promise_all_rejected {A} (settled : list (Result A)) order k e0 :
  nth_error settled k = Some (Err e0) ->
  exists i e,
    Promise_all settled order = Err e /\
    nth_error settled i = Some (Err e) /\
    first_rejected order settled i.
Proof.
  intros Hk.
  assert (Hlt : (k < length settled)%nat) by (apply nth_error_Some; congruence).
  assert (Hin : In k (order ++ seq 0 (length settled)))
    by (apply in_or_app; right; apply in_seq; lia).
  destruct (first_rejection_In settled k e0 _ Hin Hk) as [e He].
  destruct (first_rejection_Some settled e _ He)
    as (i & before & after & Hsplit & Hi & Hb).
  exists i, e. unfold Promise_all. rewrite He.
  repeat split; [exact Hi |].
  exists before, after. split; [exact Hsplit | exact Hb].
Qed.

(** ** Running the client *)

Lemma getComponents_replied network config log res :
  network (components_url config) = Replied res ->
  getComponents network config log
  = (if negb (status res =? 200) then
       Err (JiraResponseError (components_url config) (status res)
                              (statusText res))
     else
       match body res with
       | Some json => parse GetComponentsResponseSchema json
       | None => Err (TransportError "invalid json response body")
       end,
     log ++ [components_url config]).
Proof.
  intros H. unfold getComponents, fetch, send, bind, ret, throw, lift.
  unfold components_url in H. rewrite H.
  destruct (negb (status res =? 200)); [reflexivity |].
  unfold Response_json. destruct (body res); reflexivity.
Qed.

Lemma last_cons {A} (l : list A) : forall a d,
  List.last (a :: l) d = List.last l a.
Proof.
  induction l as [| b l IH]; intros a d; [reflexivity |].
  change (List.last (a :: b :: l) d) with (List.last (b :: l) d).
  rewrite (IH b d), (IH b a). reflexivity.
Qed.

(** The fan-out: the requests leave one after the other, each with the
    content the URL object has at that moment; afterwards the object
    holds what the last callback wrote. *)
Lemma map_page_requests_run network windows : forall url log,
  map_page_requests network url windows log
  = (Ok (List.last (page_urls url windows) url,
         map (fun u => network (UrlObject u)) (page_urls url windows)),
     log ++ map UrlObject (page_urls url windows)).
Proof.
  induction windows as [| w rest IH]; intros url log.
  - simpl. unfold ret. rewrite app_nil_r. reflexivity.
  - cbn [map_page_requests page_urls].
    unfold bind at 1. unfold page_request, bind, send, ret.
    fold (with_window url w). simpl fst. simpl snd.
    fold (bind (A := URL * list Reply) (B := URL * list Reply)).
    unfold bind. rewrite IH. cbn [fst snd map].
    rewrite last_cons, <- app_assoc. reflexivity.
Qed.

Lemma getIssuesByComponents_first_status network config componentIds order log res :
  network (UrlObject (search_url config componentIds)) = Replied res ->
  status res <> 200 ->
  getIssuesByComponents network config componentIds order log
  = (Err (JiraResponseError (UrlObject (search_url config componentIds))
                            (status res) (statusText res)),
     log ++ [UrlObject (search_url config componentIds)]).
Proof.
  intros H Hs. unfold getIssuesByComponents, fetch, send, bind, ret, throw, lift.
  rewrite H.
  replace (status res =? 200) with false by (symmetry; apply Z.eqb_neq; exact Hs).
  reflexivity.
Qed.

Lemma getIssuesByComponents_first_page network config componentIds order log
  res json :
  network (UrlObject (search_url config componentIds)) = Replied res ->
  status res = 200 -> body res = Some json ->
  getIssuesByComponents network config componentIds order log
  = match parse GetIssuesByComponentsResponseSchema json with
    | Err e => (Err e, log ++ [UrlObject (search_url config componentIds)])
    | Ok data =>
        match createPaginationChunks (IssuePage.maxResults data)
                                     (IssuePage.total data) with
        | Err e => (Err e, log ++ [UrlObject (search_url config componentIds)])
        | Ok chunks =>
            let url := search_url config componentIds in
            let pages := page_urls url (tail chunks) in
            (match Promise_all
                     (map (fun u => page_resume (List.last pages url)
                                                (network (UrlObject u)))
                          pages) order with
             | Err e => Err e
             | Ok batches => Ok (concat (IssuePage.issues data :: batches))
             end,
             log ++ UrlObject url :: map UrlObject pages)
        end
    end.
Proof.
  intros H Hs Hb. unfold getIssuesByComponents, fetch, send, bind, ret, throw, lift.
  rewrite H, Hs. change (negb (200 =? 200)) with false. cbv beta iota.
  unfold Response_json. rewrite Hb.
  destruct (parse GetIssuesByComponentsResponseSchema json) as [data | e];
    [| reflexivity].
  destruct (createPaginationChunks (IssuePage.maxResults data)
                                   (IssuePage.total data)) as [chunks | e];
    [| reflexivity].
  rewrite map_page_requests_run. cbv zeta. simpl fst. simpl snd.
  rewrite map_map, <- app_assoc. simpl app.
  destruct (Promise_all _ order); reflexivity.
Qed.

(** Whatever happens, a call of [getIssuesByComponents] sends its first
    request, and after it only page requests built from the same URL. *)
Lemma getIssuesByComponents_log network config componentIds order log :
  exists windows,
    snd (getIssuesByComponents network config componentIds order log)
    = log ++ UrlObject (search_url config componentIds)
          :: map UrlObject (page_urls (search_url config componentIds) windows).
Proof.
  destruct (network (UrlObject (search_url config componentIds)))
    as [res | reason] eqn:Hn.
  - destruct (Z.eq_dec (status res) 200) as [Hs | Hs].
    + destruct (body res) as [json |] eqn:Hb.
      * rewrite (getIssuesByComponents_first_page _ _ _ _ _ res json Hn Hs Hb).
        destruct (parse GetIssuesByComponentsResponseSchema json) as [data | e];
          [| exists []; reflexivity].
        destruct (createPaginationChunks _ _) as [chunks | e];
          [| exists []; reflexivity].
        exists (tail chunks). reflexivity.
      * exists []. unfold getIssuesByComponents, fetch, send, bind, ret, throw, lift.
        rewrite Hn, Hs. change (negb (200 =? 200)) with false. cbv beta iota.
        unfold Response_json. rewrite Hb. reflexivity.
    + exists []. rewrite (getIssuesByComponents_first_status _ _ _ _ _ res Hn Hs).
      reflexivity.
  - exists []. unfold getIssuesByComponents, fetch, send, bind, ret, throw, lift.
    rewrite Hn. reflexivity.
Qed.

Lemma getJiraComponentsWithoutLead_run network baseUrl projectId order log
  components log1 :
  getComponents network (mkConfig baseUrl projectId) log = (Ok components, log1) ->
  getJiraComponentsWithoutLead network baseUrl projectId order log
  = match List.filter without_lead components with
    | [] => (Ok [], log1)
    | unled =>
        match getIssuesByComponents network (mkConfig baseUrl projectId)
                (map Component.id unled) order log1 with
        | (Ok issues, log2) => (Ok (report unled issues), log2)
        | (Err e, log2) => (Err e, log2)
        end
    end.
Proof.
  intros H. unfold getJiraComponentsWithoutLead. unfold bind at 1. rewrite H.
  destruct (List.filter without_lead components) as [| c unled];
    [reflexivity |].
  cbn [length Nat.eqb]. unfold bind, ret.
  destruct (getIssuesByComponents _ _ _ _ _) as [[issues | e] log2]; reflexivity.
Qed.

Lemma filter_all_led components :
  (forall c, In c components -> Component.lead c <> None) ->
  List.filter without_lead components = [].
Proof.
  induction components as [| c rest IH]; intros H; [reflexivity |].
  simpl. unfold without_lead at 1.
  destruct (Component.lead c) eqn:Hc.
  - apply IH. intros c' Hin. apply H. right. exact Hin.
  - exfalso. apply (H c); [left; reflexivity | exact Hc].
Qed.

(** ** getComponents *)

(** A reply with a status other than 200 makes [getComponents] fail
    with [JiraResponseError] carrying the url, the status and the status
    text; a 200 reply whose body is JSON, but not of the component-list
    shape, makes it fail with [ZodError], such as for the object
    [{ "abc": "xyz" }]. *)
Theorem getComponents_failures network config log res :
  network (components_url config) = Replied res ->
  (status res <> 200 ->
   getComponents network config log
   = (Err (JiraResponseError (components_url config) (status res)
                             (statusText res)),
      log ++ [components_url config])) /\
  (status res = 200 ->
   forall json, body res = Some json -> is_component_list json = false ->
   exists issues,
     issues <> [] /\
     getComponents network config log
     = (Err (ZodError issues), log ++ [components_url config])) /\
  (status res = 200 -> body res = Some (JObject [("abc", JString "xyz")]) ->
   getComponents network config log
   = (Err (ZodError [mkIssue "array" "object" []]),
      log ++ [components_url config])).
Proof.
  intros Hn. rewrite (getComponents_replied network config log res Hn).
  split; [| split].
  - intros Hs.
    replace (status res =? 200) with false by (symmetry; apply Z.eqb_neq; exact Hs).
    reflexivity.
  - intros Hs json Hb Hshape. rewrite Hs, Hb.
    destruct (parse_not_component_list json Hshape) as (issues & Hne & ->).
    exists issues. split; [exact Hne | reflexivity].
  - intros Hs Hb. rewrite Hs, Hb. reflexivity.
Qed.

(** C6: for a 200 reply whose body is a component list, [getComponents]
    returns the components read off the elements of the body, one per
    element and in the order of the body; for the empty array it returns
    the empty list, and [getJiraComponentsWithoutLead] then reports no
    component. *)
Theorem getComponents_valid_list network baseUrl projectId order log res json :
  network (components_url (mkConfig baseUrl projectId)) = Replied res ->
  status res = 200 -> body res = Some json ->
  is_component_list json = true ->
  exists elements,
    json = JArray elements /\
    getComponents network (mkConfig baseUrl projectId) log
    = (Ok (map component_of elements),
       log ++ [components_url (mkConfig baseUrl projectId)]) /\
    (elements = [] ->
     getComponents network (mkConfig baseUrl projectId) log
     = (Ok [], log ++ [components_url (mkConfig baseUrl projectId)]) /\
     getJiraComponentsWithoutLead network baseUrl projectId order log
     = (Ok [], log ++ [components_url (mkConfig baseUrl projectId)])).
Proof.
  intros Hn Hs Hb Hshape.
  destruct (parse_component_list json Hshape) as (elements & Hj & Hp).
  exists elements. split; [exact Hj |].
  assert (Hrun : getComponents network (mkConfig baseUrl projectId) log
                 = (Ok (map component_of elements),
                    log ++ [components_url (mkConfig baseUrl projectId)])).
  { rewrite (getComponents_replied network _ log res Hn), Hs, Hb, Hp.
    reflexivity. }
  split; [exact Hrun |].
  intros He. rewrite He in Hrun. simpl in Hrun. split; [exact Hrun |].
  rewrite (getJiraComponentsWithoutLead_run _ _ _ _ _ _ _ Hrun). reflexivity.
Qed.

(** C10: when the components reply is valid and every component in it
    has a lead, [getJiraComponentsWithoutLead] returns the empty list
    and the only request sent is the one for the components. A call of
    [getIssuesByComponents], with whatever component ids, would have
    sent a search request: there was no such call, in particular none
    with an empty list of ids. *)
Theorem no_search_when_all_led network baseUrl projectId order log res json
  components :
  network (components_url (mkConfig baseUrl projectId)) = Replied res ->
  status res = 200 -> body res = Some json ->
  parse GetComponentsResponseSchema json = Ok components ->
  (forall c, In c components -> Component.lead c <> None) ->
  getJiraComponentsWithoutLead network baseUrl projectId order log
  = (Ok [], log ++ [components_url (mkConfig baseUrl projectId)]) /\
  (forall componentIds order' log',
     exists sent,
       snd (getIssuesByComponents network (mkConfig baseUrl projectId)
              componentIds order' log')
       = log' ++ UrlObject (search_url (mkConfig baseUrl projectId) componentIds)
              :: sent).
Proof.
  intros Hn Hs Hb Hp Hled. split.
  - assert (Hrun : getComponents network (mkConfig baseUrl projectId) log
                   = (Ok components,
                      log ++ [components_url (mkConfig baseUrl projectId)])).
    { rewrite (getComponents_replied network _ log res Hn), Hs, Hb, Hp.
      reflexivity. }
    rewrite (getJiraComponentsWithoutLead_run _ _ _ _ _ _ _ Hrun).
    rewrite (filter_all_led components Hled). reflexivity.
  - intros componentIds order' log'.
    destruct (getIssuesByComponents_log network (mkConfig baseUrl projectId)
                componentIds order' log') as [windows Hlog].
    eexists. exact Hlog.
Qed.

(** ** The parameters of a URL *)

Lemma params_get_remove_other k k' params :
  k <> k' -> params_get k (remove_params k' params) = params_get k params.
Proof.
  intros Hne. induction params as [| [k0 v0] rest IH]; [reflexivity |].
  simpl. destruct (String.eqb_spec k0 k') as [-> | Hk0].
  - rewrite IH. destruct (String.eqb_spec k' k); [congruence | reflexivity].
  - simpl. rewrite IH. reflexivity.
Qed.

Lemma params_get_set_same k v params :
  params_get k (params_set k v params) = Some v.
Proof.
  induction params as [| [k0 v0] rest IH]; simpl.
  - rewrite String.eqb_refl. reflexivity.
  - destruct (String.eqb_spec k0 k) as [-> | Hk0]; simpl.
    + rewrite String.eqb_refl. reflexivity.
    + destruct (String.eqb_spec k0 k); [congruence | exact IH].
Qed.

Lemma params_get_set_other k k' v params :
  k <> k' -> params_get k (params_set k' v params) = params_get k params.
Proof.
  intros Hne. induction params as [| [k0 v0] rest IH]; simpl.
  - destruct (String.eqb_spec k' k); [congruence | reflexivity].
  - destruct (String.eqb_spec k0 k') as [-> | Hk0]; simpl.
    + destruct (String.eqb_spec k' k); [congruence |].
      apply params_get_remove_other. exact Hne.
    + rewrite IH. reflexivity.
Qed.

Lemma remove_params_comm k k' params :
  remove_params k (remove_params k' params)
  = remove_params k' (remove_params k params).
Proof.
  induction params as [| [k0 v0] rest IH]; [reflexivity |]. simpl.
  destruct (String.eqb k0 k') eqn:E1, (String.eqb k0 k) eqn:E2;
    simpl; rewrite ?E1, ?E2; rewrite ?IH; reflexivity.
Qed.

Lemma remove_params_idem k params :
  remove_params k (remove_params k params) = remove_params k params.
Proof.
  induction params as [| [k0 v0] rest IH]; [reflexivity |]. simpl.
  destruct (String.eqb k0 k) eqn:E; simpl; rewrite ?E, IH; reflexivity.
Qed.

Lemma remove_params_set k k' v params :
  k <> k' ->
  remove_params k (params_set k' v params)
  = params_set k' v (remove_params k params).
Proof.
  intros Hne. induction params as [| [k0 v0] rest IH]; simpl.
  - destruct (String.eqb_spec k' k); [congruence | reflexivity].
  - destruct (String.eqb k0 k') eqn:E1, (String.eqb k0 k) eqn:E2;
      simpl; rewrite ?E1, ?E2; rewrite ?IH; try reflexivity.
    + apply String.eqb_eq in E1, E2. congruence.
    + rewrite remove_params_comm. reflexivity.
Qed.

(** Setting a parameter twice is setting it to the second value. *)
Lemma params_set_set k v v' params :
  params_set k v (params_set k v' params) = params_set k v params.
Proof.
  induction params as [| [k0 v0] rest IH]; simpl.
  - rewrite String.eqb_refl. reflexivity.
  - destruct (String.eqb k0 k) eqn:E; simpl; rewrite E.
    + rewrite remove_params_idem. reflexivity.
    + rewrite IH. reflexivity.
Qed.

(** Two parameters are set in either order, once the first is there. *)
Lemma params_set_comm k k' v v' params :
  k <> k' -> params_get k params <> None ->
  params_set k v (params_set k' v' params)
  = params_set k' v' (params_set k v params).
Proof.
  intros Hne. induction params as [| [k0 v0] rest IH]; intros Hin.
  - contradiction.
  - simpl in Hin |- *.
    destruct (String.eqb k0 k') eqn:E1, (String.eqb k0 k) eqn:E2;
      simpl; rewrite ?E1, ?E2.
    + apply String.eqb_eq in E1, E2. congruence.
    + rewrite remove_params_set by congruence. reflexivity.
    + rewrite remove_params_set by congruence. reflexivity.
    + rewrite IH by exact Hin. reflexivity.
Qed.

(** How often a name occurs among the parameters. *)
Lemma occurrences_cons_name k k0 names :
  occurrences k (k0 :: names)
  = ((if String.eqb k0 k then 1 else 0) + occurrences k names)%nat.
Proof.
  unfold occurrences. simpl. rewrite (String.eqb_sym k k0).
  destruct (String.eqb k0 k); reflexivity.
Qed.

Lemma occurrences_remove_same k params :
  occurrences k (map fst (remove_params k params)) = 0%nat.
Proof.
  induction params as [| [k0 v0] rest IH]; [reflexivity |]. simpl.
  destruct (String.eqb k0 k) eqn:E; [exact IH |].
  simpl. rewrite occurrences_cons_name, E, IH. reflexivity.
Qed.

Lemma occurrences_remove_other k k' params :
  k <> k' ->
  occurrences k (map fst (remove_params k' params))
  = occurrences k (map fst params).
Proof.
  intros Hne. induction params as [| [k0 v0] rest IH]; [reflexivity |]. simpl.
  rewrite occurrences_cons_name.
  destruct (String.eqb k0 k') eqn:E1; simpl.
  - destruct (String.eqb_spec k0 k) as [E2 | E2].
    + apply String.eqb_eq in E1. congruence.
    + exact IH.
  - rewrite occurrences_cons_name, IH. reflexivity.
Qed.

Lemma occurrences_set_same k v params :
  occurrences k (map fst (params_set k v params)) = 1%nat.
Proof.
  induction params as [| [k0 v0] rest IH]; simpl.
  - rewrite occurrences_cons_name, String.eqb_refl. reflexivity.
  - destruct (String.eqb k0 k) eqn:E; simpl; rewrite occurrences_cons_name, E.
    + rewrite occurrences_remove_same. reflexivity.
    + exact IH.
Qed.

Lemma occurrences_set_other k k' v params :
  k <> k' ->
  occurrences k (map fst (params_set k' v params))
  = occurrences k (map fst params).
Proof.
  intros Hne. induction params as [| [k0 v0] rest IH]; simpl.
  - rewrite occurrences_cons_name.
    destruct (String.eqb_spec k' k); [congruence | reflexivity].
  - rewrite occurrences_cons_name.
    destruct (String.eqb k0 k') eqn:E1; simpl; rewrite occurrences_cons_name.
    + rewrite occurrences_remove_other by exact Hne. reflexivity.
    + rewrite IH. reflexivity.
Qed.

Lemma remove_params_absent k params :
  occurrences k (map fst params) = 0%nat -> remove_params k params = params.
Proof.
  induction params as [| [k0 v0] rest IH]; [reflexivity |].
  simpl. rewrite occurrences_cons_name.
  destruct (String.eqb k0 k); [discriminate |].
  intros H0. rewrite IH by exact H0. reflexivity.
Qed.

(** Setting a parameter that occurs once changes no name. *)
Lemma params_set_names k v params :
  occurrences k (map fst params) = 1%nat ->
  map fst (params_set k v params) = map fst params.
Proof.
  induction params as [| [k0 v0] rest IH]; [discriminate |].
  simpl. rewrite occurrences_cons_name.
  destruct (String.eqb k0 k); simpl; intros H1.
  - rewrite remove_params_absent; [reflexivity | lia].
  - rewrite IH by exact H1. reflexivity.
Qed.

Ltac parameter_there :=
  rewrite ?params_get_set_other by discriminate;
  rewrite params_get_set_same; discriminate.

(** Writing a window into a search request gives the search request of
    that window. *)
Lemma with_window_request_url config componentIds from size w :
  with_window (request_url config componentIds from size) w
  = request_url config componentIds
      (String_of_integer (startAt w)) (String_of_integer (pageSize w)).
Proof.
  unfold with_window, request_url, searchParams_set.
  cbn [origin_and_path searchParams]. f_equal.
  rewrite (params_set_comm "startAt" "jql") by (discriminate || parameter_there).
  rewrite (params_set_comm "startAt" "fields") by (discriminate || parameter_there).
  rewrite (params_set_comm "startAt" "validateQuery")
    by (discriminate || parameter_there).
  rewrite (params_set_comm "startAt" "maxResults")
    by (discriminate || parameter_there).
  rewrite params_set_set.
  rewrite (params_set_comm "maxResults" "jql") by (discriminate || parameter_there).
  rewrite (params_set_comm "maxResults" "fields")
    by (discriminate || parameter_there).
  rewrite (params_set_comm "maxResults" "validateQuery")
    by (discriminate || parameter_there).
  rewrite params_set_set. reflexivity.
Qed.

(** ** getIssuesByComponents *)

Lemma search_url_request config componentIds :
  search_url config componentIds = request_url config componentIds "0" "10000".
Proof. reflexivity. Qed.

Lemma page_resume_serves network url page batch :
  serves network page batch ->
  page_resume url (network (UrlObject page)) = Ok batch.
Proof.
  intros (res & json & data & Hn & Hs & Hb & Hp & Hi).
  unfold page_resume, Response_json. rewrite Hn, Hs, Hb, Hp, Hi. reflexivity.
Qed.

(** C9, amended: when the first page is valid, its [maxResults] is a
    positive safe integer and its [total] is a non-negative integer not
    above [maxResults], exactly one request is sent and the result is
    the batch of the first page (on every engine that builds an array
    of one element). *)
Theorem single_page network config componentIds order log res json data M T :
  network (UrlObject (search_url config componentIds)) = Replied res ->
  status res = 200 -> body res = Some json ->
  parse GetIssuesByComponentsResponseSchema json = Ok data ->
  is_integer_value (IssuePage.maxResults data) M ->
  is_integer_value (IssuePage.total data) T ->
  0 < M <= MAX_SAFE_INTEGER -> 0 <= T <= M ->
  1 <= array_limit ->
  getIssuesByComponents network config componentIds order log
  = (Ok (IssuePage.issues data),
     log ++ [UrlObject (search_url config componentIds)]).
Proof.
  intros Hn Hs Hb Hp HM HT HMr HTr Hlimit.
  rewrite (getIssuesByComponents_first_page _ _ _ _ _ res json Hn Hs Hb), Hp.
  rewrite (createPaginationChunks_safe _ _ M T HM HT HMr ltac:(lia)).
  assert (Hc : Math_ceil_div T M = 0 \/ Math_ceil_div T M = 1).
  { destruct (Z.eq_dec T 0) as [-> | Hne].
    - left. apply Math_ceil_div_zero. lia.
    - right. apply Math_ceil_div_unique; lia. }
  destruct Hc as [-> | ->].
  - replace (longest_array <? 0) with false by within_limit.
    cbv iota.
    change (indices 0) with (@nil Z). cbn [map tail page_urls].
    rewrite Promise_all_nil.
    cbn [concat]. rewrite app_nil_r. reflexivity.
  - replace (longest_array <? 1) with false by within_limit.
    cbv iota.
    change (indices 1) with [0]. cbn [map tail page_urls].
    rewrite Promise_all_nil.
    cbn [concat]. rewrite app_nil_r. reflexivity.
Qed.

(** C1: when the first page is valid and reports [total = 8] and
    [maxResults = 2], exactly four requests are sent, with [startAt]
    0, 2, 4 and 6 (the first asking for 10000 results, the others for
    2); when the three later requests are served, the result is the
    first batch followed by theirs in the order of the windows, whatever
    the order in which the requests complete; it is the whole list of
    eight issues when the pages are its slices (on every engine that
    builds an array of four elements). *)
Theorem paginated_fetch network config componentIds order log res json data :
  network (UrlObject (search_url config componentIds)) = Replied res ->
  status res = 200 -> body res = Some json ->
  parse GetIssuesByComponentsResponseSchema json = Ok data ->
  is_integer_value (IssuePage.total data) 8 ->
  is_integer_value (IssuePage.maxResults data) 2 ->
  4 <= array_limit ->
  snd (getIssuesByComponents network config componentIds order log)
  = log ++ map UrlObject [request_url config componentIds "0" "10000";
                          request_url config componentIds "2" "2";
                          request_url config componentIds "4" "2";
                          request_url config componentIds "6" "2"] /\
  (forall b1 b2 b3,
     serves network (request_url config componentIds "2" "2") b1 ->
     serves network (request_url config componentIds "4" "2") b2 ->
     serves network (request_url config componentIds "6" "2") b3 ->
     fst (getIssuesByComponents network config componentIds order log)
     = Ok (IssuePage.issues data ++ b1 ++ b2 ++ b3)) /\
  (forall all,
     length all = 8%nat ->
     IssuePage.issues data = firstn 2 all ->
     serves network (request_url config componentIds "2" "2")
            (firstn 2 (skipn 2 all)) ->
     serves network (request_url config componentIds "4" "2")
            (firstn 2 (skipn 4 all)) ->
     serves network (request_url config componentIds "6" "2")
            (firstn 2 (skipn 6 all)) ->
     fst (getIssuesByComponents network config componentIds order log) = Ok all).
Proof.
  intros Hn Hs Hb Hp HT HM Hlimit.
  rewrite (getIssuesByComponents_first_page _ _ _ _ _ res json Hn Hs Hb), Hp.
  rewrite (createPaginationChunks_safe _ _ 2 8 HM HT)
    by (unfold MAX_SAFE_INTEGER; lia).
  change (Math_ceil_div 8 2) with 4.
  replace (longest_array <? 4) with false by within_limit.
  cbv iota.
  change (tail (map (chunk 2 8 4) (indices 4)))
    with [mkWindow 2 2; mkWindow 4 2; mkWindow 6 2].
  rewrite search_url_request. cbv zeta.
  replace (page_urls (request_url config componentIds "0" "10000")
                     [mkWindow 2 2; mkWindow 4 2; mkWindow 6 2])
    with [request_url config componentIds "2" "2";
          request_url config componentIds "4" "2";
          request_url config componentIds "6" "2"]
    by (cbn [page_urls]; rewrite !with_window_request_url; reflexivity).
  assert (Hserved : forall b1 b2 b3,
     serves network (request_url config componentIds "2" "2") b1 ->
     serves network (request_url config componentIds "4" "2") b2 ->
     serves network (request_url config componentIds "6" "2") b3 ->
     fst (match Promise_all
                  (map (fun u => page_resume
                                   (List.last
                                      [request_url config componentIds "2" "2";
                                       request_url config componentIds "4" "2";
                                       request_url config componentIds "6" "2"]
                                      (request_url config componentIds "0" "10000"))
                                   (network (UrlObject u)))
                       [request_url config componentIds "2" "2";
                        request_url config componentIds "4" "2";
                        request_url config componentIds "6" "2"]) order with
          | Err e => Err e
          | Ok batches => Ok (concat (IssuePage.issues data :: batches))
          end,
          log ++ UrlObject (request_url config componentIds "0" "10000")
              :: map UrlObject [request_url config componentIds "2" "2";
                                request_url config componentIds "4" "2";
                                request_url config componentIds "6" "2"])
     = Ok (IssuePage.issues data ++ b1 ++ b2 ++ b3)).
  { intros b1 b2 b3 H1 H2 H3. cbn [map fst].
    rewrite (page_resume_serves network _ _ b1 H1),
            (page_resume_serves network _ _ b2 H2),
            (page_resume_serves network _ _ b3 H3).
    change [Ok b1; Ok b2; Ok b3] with (map (@Ok (list Issue.t)) [b1; b2; b3]).
    rewrite Promise_all_fulfilled. cbn [concat]. rewrite app_nil_r.
    reflexivity. }
  split; [reflexivity |]. split; [exact Hserved |].
  intros all Hlen Hfirst H1 H2 H3.
  rewrite (Hserved _ _ _ H1 H2 H3), Hfirst. f_equal.
  do 9 (destruct all as [| ? all]; try discriminate). reflexivity.
Qed.

(** ** The URL object under the fan-out *)

Lemma with_window_params url w :
  params_get "startAt" (searchParams (with_window url w))
  = Some (String_of_integer (startAt w)) /\
  params_get "maxResults" (searchParams (with_window url w))
  = Some (String_of_integer (pageSize w)) /\
  origin_and_path (with_window url w) = origin_and_path url /\
  (forall k, k <> "startAt" -> k <> "maxResults" ->
     params_get k (searchParams (with_window url w))
     = params_get k (searchParams url)).
Proof.
  unfold with_window, searchParams_set; simpl. repeat split.
  - rewrite params_get_set_other by discriminate. apply params_get_set_same.
  - apply params_get_set_same.
  - intros k H1 H2. rewrite !params_get_set_other by assumption. reflexivity.
Qed.

Lemma page_urls_nth windows : forall url i w,
  nth_error windows i = Some w ->
  exists page,
    nth_error (page_urls url windows) i = Some page /\
    params_get "startAt" (searchParams page)
    = Some (String_of_integer (startAt w)) /\
    params_get "maxResults" (searchParams page)
    = Some (String_of_integer (pageSize w)) /\
    origin_and_path page = origin_and_path url /\
    (forall k, k <> "startAt" -> k <> "maxResults" ->
       params_get k (searchParams page) = params_get k (searchParams url)).
Proof.
  induction windows as [| w0 rest IH]; intros url i w Hi.
  - destruct i; discriminate.
  - destruct i as [| i]; simpl in Hi.
    + injection Hi as ->. exists (with_window url w).
      split; [reflexivity | apply with_window_params].
    + destruct (IH (with_window url w0) i w Hi)
        as (page & Hp & Hs & Hm & Ho & Hk).
      destruct (with_window_params url w0) as (_ & _ & Ho0 & Hk0).
      exists page. split; [exact Hp |]. split; [exact Hs |].
      split; [exact Hm |]. split; [congruence |].
      intros k H1 H2. rewrite (Hk k H1 H2). apply Hk0; assumption.
Qed.

Lemma length_page_urls windows : forall url,
  length (page_urls url windows) = length windows.
Proof.
  induction windows as [| w rest IH]; intros url; [reflexivity |].
  simpl. rewrite IH. reflexivity.
Qed.

(** ** Failing pages *)

(** A first request answered with a status other than 200 fails the
    operation with [JiraResponseError] carrying its url, status and
    status text, and a first JSON body that fails validation fails it
    with [ZodError]. After a valid first page, a later request answered
    with a status other than 200 ends in a [JiraResponseError] with
    that status and status text and with the URL object as the last
    callback left it; one answered 200 ends in a [ZodError] with the
    issues of its body when that is JSON and fails validation, and in
    the error of the HTTP layer when it is not JSON. As soon as one
    page request fails, the whole operation fails (no issue list is
    returned) with the unchanged error of the page request that fails
    first in completion order. *)
Theorem page_failures network config componentIds order log :
  (forall res,
     network (UrlObject (search_url config componentIds)) = Replied res ->
     status res <> 200 ->
     getIssuesByComponents network config componentIds order log
     = (Err (JiraResponseError (UrlObject (search_url config componentIds))
                               (status res) (statusText res)),
        log ++ [UrlObject (search_url config componentIds)])) /\
  (forall res json issues,
     network (UrlObject (search_url config componentIds)) = Replied res ->
     status res = 200 -> body res = Some json ->
     GetIssuesByComponentsResponseSchema [] (Some json) = Failure issues ->
     getIssuesByComponents network config componentIds order log
     = (Err (ZodError issues),
        log ++ [UrlObject (search_url config componentIds)])) /\
  (forall res json data chunks,
     network (UrlObject (search_url config componentIds)) = Replied res ->
     status res = 200 -> body res = Some json ->
     parse GetIssuesByComponentsResponseSchema json = Ok data ->
     createPaginationChunks (IssuePage.maxResults data) (IssuePage.total data)
     = Ok chunks ->
     let pages := page_urls (search_url config componentIds) (tail chunks) in
     let outcomes :=
       map (fun page =>
              page_resume (List.last pages (search_url config componentIds))
                          (network (UrlObject page)))
           pages in
     (forall i page r,
        nth_error pages i = Some page ->
        network (UrlObject page) = Replied r ->
        (status r <> 200 ->
         nth_error outcomes i
         = Some (Err (JiraResponseError
                        (UrlObject
                           (List.last pages (search_url config componentIds)))
                        (status r) (statusText r)))) /\
        (status r = 200 ->
         forall j issues,
           body r = Some j ->
           GetIssuesByComponentsResponseSchema [] (Some j) = Failure issues ->
           nth_error outcomes i = Some (Err (ZodError issues))) /\
        (status r = 200 -> body r = None ->
         exists message,
           nth_error outcomes i = Some (Err (TransportError message)))) /\
     (forall k e0,
        nth_error outcomes k = Some (Err e0) ->
        exists i e,
          fst (getIssuesByComponents network config componentIds order log)
          = Err e /\
          nth_error outcomes i = Some (Err e) /\
          first_rejected order outcomes i)).
Proof.
  split; [| split].
  - intros res Hn Hs. apply getIssuesByComponents_first_status; assumption.
  - intros res json issues Hn Hs Hb Hf.
    rewrite (getIssuesByComponents_first_page _ _ _ _ _ res json Hn Hs Hb).
    unfold parse. rewrite Hf. reflexivity.
  - intros res json data chunks Hn Hs Hb Hp Hc pages outcomes. split.
    + intros i page r Hi Hr. subst outcomes.
      rewrite nth_error_map, Hi. cbn [option_map].
      unfold page_resume. rewrite Hr. split; [| split].
      * intros Hne.
        replace (status r =? 200) with false
          by (symmetry; apply Z.eqb_neq; exact Hne).
        reflexivity.
      * intros H200 j issues Hj Hf. rewrite H200.
        change (negb (200 =? 200)) with false. cbv iota.
        unfold Response_json. rewrite Hj. unfold parse. rewrite Hf.
        reflexivity.
      * intros H200 Hnone. rewrite H200.
        change (negb (200 =? 200)) with false. cbv iota.
        unfold Response_json. rewrite Hnone. eexists. reflexivity.
    + intros k e0 Hk.
      rewrite (getIssuesByComponents_first_page _ _ _ _ _ res json Hn Hs Hb),
        Hp, Hc.
      cbv zeta. fold pages. fold outcomes.
      destruct (Promise_all_rejected outcomes order k e0 Hk)
        as (i & e & Hall & Hi & Hfirst).
      exists i, e. rewrite Hall. repeat split; assumption.
Qed.

(** ** Counting the issues of a component *)

Lemma occurrences_cons id id' ids :
  occurrences id (id' :: ids)
  = ((if String.eqb id id' then 1 else 0) + occurrences id ids)%nat.
Proof. unfold occurrences. simpl. destruct (String.eqb id id'); reflexivity. Qed.

Lemma occurrences_app id ids ids' :
  occurrences id (ids ++ ids') = (occurrences id ids + occurrences id ids')%nat.
Proof. unfold occurrences. rewrite List.filter_app, length_app. reflexivity. Qed.

Lemma count_components_lookup id components : forall counts : gmap string nat,
  default 0%nat (count_components counts components !! id)
  = (default 0%nat (counts !! id)
     + occurrences id (map IssueComponent.id components))%nat.
Proof.
  induction components as [| c rest IH]; intros counts.
  - unfold occurrences. simpl. lia.
  - change (count_components counts (c :: rest))
      with (count_components
              (<[IssueComponent.id c :=
                   (default 0%nat (counts !! IssueComponent.id c) + 1)%nat]> counts)
              rest).
    rewrite IH. cbn [map]. rewrite occurrences_cons.
    destruct (String.eqb_spec id (IssueComponent.id c)) as [-> | Hne].
    + rewrite lookup_insert_eq. simpl. lia.
    + rewrite lookup_insert_ne by congruence. lia.
Qed.

Lemma issues_count_lookup id issues : forall counts : gmap string nat,
  default 0%nat
    (fold_left
       (fun m issue => count_components m (Fields.components (Issue.fields issue)))
       issues counts !! id)
  = (default 0%nat (counts !! id)
     + occurrences id (flat_map component_ids issues))%nat.
Proof.
  induction issues as [| issue rest IH]; intros counts.
  - unfold occurrences. simpl. lia.
  - cbn [fold_left flat_map]. rewrite IH, count_components_lookup.
    rewrite occurrences_app. unfold component_ids at 2. lia.
Qed.

Lemma report_entries unled issues :
  report unled issues
  = map (fun c => Entry.mk (Component.id c) (Component.name c)
                           (count_references (Component.id c) issues))
        unled.
Proof.
  unfold report. apply map_ext. intros c. f_equal.
  unfold issuesCountByComponentId, count_references.
  rewrite issues_count_lookup, lookup_empty. reflexivity.
Qed.

Lemma occurrences_NoDup id ids :
  List.NoDup ids ->
  occurrences id ids = if existsb (String.eqb id) ids then 1%nat else 0%nat.
Proof.
  induction ids as [| id' rest IH]; intros Hnd; [reflexivity |].
  apply NoDup_cons_iff in Hnd. destruct Hnd as [Hnotin Hnd].
  rewrite occurrences_cons, (IH Hnd). cbn [existsb].
  destruct (String.eqb_spec id id') as [-> | Hne]; [| reflexivity].
  cbn [orb].
  destruct (existsb (String.eqb id') rest) eqn:Hex; [| reflexivity].
  exfalso. apply existsb_exists in Hex. destruct Hex as (x & Hin & Hx).
  apply String.eqb_eq in Hx. subst x. exact (Hnotin Hin).
Qed.

Lemma count_references_NoDup id issues :
  (forall issue, In issue issues -> List.NoDup (component_ids issue)) ->
  count_references id issues = count_issues_referencing id issues.
Proof.
  unfold count_references, count_issues_referencing.
  induction issues as [| issue rest IH]; intros Hnd; [reflexivity |].
  cbn [flat_map List.filter]. rewrite occurrences_app.
  rewrite (occurrences_NoDup id (component_ids issue))
    by (apply Hnd; left; reflexivity).
  rewrite IH by (intros i Hi; apply Hnd; right; exact Hi).
  destruct (existsb (String.eqb id) (component_ids issue)); reflexivity.
Qed.

(** C7, amended: the output has one entry [{id, name, issues}] per
    component without a lead, in the order of the component list, where
    [issues] is the number of times the component id occurs in the
    component lists of the fetched issues (0 when it does not occur);
    this is the number of issues that reference the component whenever
    no issue lists a component id twice. With a single component
    without a lead whose id occurs twice, the output is the single entry
    with [issues = 2]. *)
Theorem report_counts network baseUrl projectId order log components log1 :
  getComponents network (mkConfig baseUrl projectId) log = (Ok components, log1) ->
  (List.filter without_lead components = [] ->
   getJiraComponentsWithoutLead network baseUrl projectId order log
   = (Ok [], log1)) /\
  (forall issues log2,
     List.filter without_lead components <> [] ->
     getIssuesByComponents network (mkConfig baseUrl projectId)
       (map Component.id (List.filter without_lead components)) order log1
     = (Ok issues, log2) ->
     getJiraComponentsWithoutLead network baseUrl projectId order log
     = (Ok (map (fun c => Entry.mk (Component.id c) (Component.name c)
                                   (count_references (Component.id c) issues))
                (List.filter without_lead components)),
        log2) /\
     ((forall issue, In issue issues -> List.NoDup (component_ids issue)) ->
      getJiraComponentsWithoutLead network baseUrl projectId order log
      = (Ok (map (fun c => Entry.mk (Component.id c) (Component.name c)
                              (count_issues_referencing (Component.id c) issues))
                 (List.filter without_lead components)),
         log2)) /\
     (forall c,
        List.filter without_lead components = [c] ->
        count_references (Component.id c) issues = 2%nat ->
        getJiraComponentsWithoutLead network baseUrl projectId order log
        = (Ok [Entry.mk (Component.id c) (Component.name c) 2], log2))).
Proof.
  intros Hc.
  rewrite (getJiraComponentsWithoutLead_run _ _ _ _ _ _ _ Hc).
  split.
  - intros ->. reflexivity.
  - intros issues log2 Hne Hi.
    destruct (List.filter without_lead components) as [| c0 unled];
      [congruence |].
    cbv zeta. rewrite Hi, report_entries. split; [reflexivity |]. split.
    + intros Hnd. f_equal. f_equal. apply map_ext. intros c.
      rewrite (count_references_NoDup _ issues Hnd). reflexivity.
    + intros c Heq Hcount. injection Heq as -> ->. simpl. rewrite Hcount.
      reflexivity.
Qed.

(* ================================================================== *)
(** * Further properties of the code *)
(* ================================================================== *)

(** ** The planner outside and inside its contract *)

Lemma isSafeInteger_value x :
  Number_isSafeInteger x = true ->
  is_integer_value x (to_Z x) /\ Z.abs (to_Z x) <= MAX_SAFE_INTEGER.
Proof.
  unfold Number_isSafeInteger. intros H. apply andb_true_iff in H.
  destruct H as [Hi Hb]. apply Z.leb_le in Hb.
  split; [split; [exact Hi | reflexivity] | exact Hb].
Qed.

(** The planner throws [TypeError] for [NaN], for the infinities and
    for every integer of magnitude above [2^53 - 1], be it the page
    size or the total. *)
Theorem planner_rejects_unsafe (x other : number) :
  x = NaN \/ (exists negative, x = Infinity negative) \/
  (exists z, is_integer_value x z /\ MAX_SAFE_INTEGER < Z.abs z) ->
  (exists message, createPaginationChunks x other = Err (TypeError message)) /\
  (exists message, createPaginationChunks other x = Err (TypeError message)).
Proof.
  intros H.
  assert (Hx : Number_isSafeInteger x = false).
  { destruct H as [-> | [[negative ->] | (z & Hz & Hbig)]];
      [reflexivity | reflexivity |].
    rewrite (isSafeInteger_integer x z Hz). apply Z.leb_gt. exact Hbig. }
  unfold createPaginationChunks. rewrite Hx. split; [simpl; eauto |].
  destruct (negb (Number_isSafeInteger other) || number_leb other (of_Z 0));
    simpl; eauto.
Qed.

(** When the planner returns windows, its arguments were a positive
    safe integer page size [P] and a non-negative safe integer total
    [T]; there are at most [2^32 - 1] windows, window [i] starts at
    [i * P], holds between 1 and [P] items and ends at or before [T]. *)
Theorem planner_success_contract (x y : number) (windows : list PageWindow) :
  createPaginationChunks x y = Ok windows ->
  exists P T,
    is_integer_value x P /\ is_integer_value y T /\
    0 < P <= MAX_SAFE_INTEGER /\ 0 <= T <= MAX_SAFE_INTEGER /\
    Z.of_nat (length windows) <= MAX_ARRAY_LENGTH /\
    (forall i w,
       nth_error windows i = Some w ->
       startAt w = Z.of_nat i * P /\
       1 <= pageSize w <= P /\
       startAt w + pageSize w <= T).
Proof.
  intros H.
  assert (Hguards :
    Number_isSafeInteger x = true /\ number_leb x (of_Z 0) = false /\
    Number_isSafeInteger y = true /\ number_ltb y (of_Z 0) = false).
  { unfold createPaginationChunks in H.
    destruct (Number_isSafeInteger x); [| discriminate].
    destruct (number_leb x (of_Z 0)); [discriminate |].
    destruct (Number_isSafeInteger y); [| discriminate].
    destruct (number_ltb y (of_Z 0)); [discriminate |].
    repeat split. }
  destruct Hguards as (Hsx & Hlx & Hsy & Hly).
  destruct (isSafeInteger_value x Hsx) as [Hx Hxb].
  destruct (isSafeInteger_value y Hsy) as [Hy Hyb].
  rewrite (leb_zero_integer x _ Hx) in Hlx. apply Z.leb_gt in Hlx.
  rewrite (ltb_zero_integer y _ Hy) in Hly. apply Z.ltb_ge in Hly.
  set (P := to_Z x) in *. set (T := to_Z y) in *.
  assert (HP : 0 < P <= MAX_SAFE_INTEGER) by lia.
  assert (HT : 0 <= T <= MAX_SAFE_INTEGER) by lia.
  rewrite (createPaginationChunks_safe x y P T Hx Hy HP HT) in H.
  pose proof (Math_ceil_div_spec T P ltac:(lia)) as Hc.
  pose proof (Math_ceil_div_nonneg T P ltac:(lia) ltac:(lia)) as Hc0.
  set (c := Math_ceil_div T P) in *.
  destruct (Z.ltb_spec longest_array c) as [Hbig | Hsmall]; [discriminate |].
  assert (Hmax : c <= MAX_ARRAY_LENGTH) by (unfold longest_array in Hsmall; lia).
  injection H as <-.
  exists P, T.
  split; [exact Hx |]. split; [exact Hy |].
  split; [exact HP |]. split; [exact HT |]. split.
  - rewrite length_map, length_indices by exact Hc0. exact Hmax.
  - intros i w Hw. apply nth_error_chunks in Hw. destruct Hw as [-> Hi].
    unfold chunk; simpl.
    destruct (Z.eqb_spec (Z.of_nat i) (c - 1)); repeat split; nia.
Qed.

(** When the page size divides the total, all windows have the page
    size: for total [P * k], with [k] not more than the longest array
    the engine builds, the planner returns the [k] windows
    [(i * P, P)]. *)
Theorem planner_divisible_total (x y : number) (P k : Z) :
  is_integer_value x P -> is_integer_value y (P * k) ->
  0 < P <= MAX_SAFE_INTEGER -> 0 <= k -> P * k <= MAX_SAFE_INTEGER ->
  k <= longest_array ->
  createPaginationChunks x y
  = Ok (map (fun index => mkWindow (index * P) P) (indices k)).
Proof.
  intros Hx Hy HP Hk HT Hmax.
  rewrite (createPaginationChunks_safe x y P (P * k) Hx Hy HP ltac:(nia)).
  rewrite (Math_ceil_div_unique (P * k) P k) by nia.
  replace (longest_array <? k) with false by within_limit.
  f_equal. apply map_ext. intros index. unfold chunk.
  destruct (Z.eqb_spec index (k - 1)); f_equal; lia.
Qed.

(** A positive total that fits in one page gives the single window
    [(0, total)] (on every engine that builds an array of one
    element). *)
Theorem planner_single_window (x y : number) (P T : Z) :
  is_integer_value x P -> is_integer_value y T ->
  0 < P <= MAX_SAFE_INTEGER -> 0 < T <= P ->
  1 <= array_limit ->
  createPaginationChunks x y = Ok [mkWindow 0 T].
Proof.
  intros Hx Hy HP HT Hlimit.
  rewrite (createPaginationChunks_safe x y P T Hx Hy HP ltac:(lia)).
  rewrite (Math_ceil_div_unique T P 1) by lia.
  replace (longest_array <? 1) with false by within_limit.
  cbv iota.
  change (indices 1) with [0]. cbn [map]. unfold chunk. simpl.
  do 2 f_equal. f_equal. lia.
Qed.

(** ** The schemas: round trips, ignored keys, null *)

Lemma ComponentSchema_encode path c :
  ComponentSchema path (Some (encode_component c)) = Success c.
Proof. destruct c as [id name [[accountId displayName] |]]; reflexivity. Qed.

Lemma parse_elements_encode_components path cs : forall i,
  parse_elements ComponentSchema path i (map encode_component cs) = Success cs.
Proof.
  induction cs as [| c rest IH]; intros i; [reflexivity |].
  cbn [map parse_elements]. rewrite ComponentSchema_encode, IH. reflexivity.
Qed.

(** Every component list, written as JSON with its fields ([lead] left
    out when there is none), is read back unchanged by [getComponents]. *)
Theorem getComponents_round_trip network config log res
  (components : list Component.t) :
  network (components_url config) = Replied res ->
  status res = 200 ->
  body res = Some (JArray (map encode_component components)) ->
  getComponents network config log
  = (Ok components, log ++ [components_url config]).
Proof.
  intros Hn Hs Hb.
  rewrite (getComponents_replied network config log res Hn), Hs, Hb.
  change (negb (200 =? 200)) with false. cbv iota.
  unfold parse, GetComponentsResponseSchema, z_array.
  rewrite parse_elements_encode_components. reflexivity.
Qed.

Lemma IssueComponentSchema_encode path c :
  IssueComponentSchema path (Some (encode_issue_component c)) = Success c.
Proof. destruct c; reflexivity. Qed.

Lemma parse_elements_encode_issue_components path cs : forall i,
  parse_elements IssueComponentSchema path i (map encode_issue_component cs)
  = Success cs.
Proof.
  induction cs as [| c rest IH]; intros i; [reflexivity |].
  cbn [map parse_elements]. rewrite IssueComponentSchema_encode, IH.
  reflexivity.
Qed.

Lemma IssueSchema_encode path issue :
  IssueSchema path (Some (encode_issue issue)) = Success issue.
Proof.
  destruct issue as [id [components]].
  unfold IssueSchema, encode_issue, z_object, field, FieldsSchema, z_array.
  cbn -[parse_elements].
  rewrite parse_elements_encode_issue_components. reflexivity.
Qed.

Lemma parse_elements_encode_issues path issues : forall i,
  parse_elements IssueSchema path i (map encode_issue issues) = Success issues.
Proof.
  induction issues as [| issue rest IH]; intros i; [reflexivity |].
  cbn [map parse_elements]. rewrite IssueSchema_encode, IH. reflexivity.
Qed.

(** Every issue page whose three numbers are not [NaN], written as
    JSON, is read back unchanged by the page schema. *)
Theorem issue_page_round_trip (page : IssuePage.t) :
  IssuePage.startAt page <> NaN -> IssuePage.maxResults page <> NaN ->
  IssuePage.total page <> NaN ->
  parse GetIssuesByComponentsResponseSchema (encode_page page) = Ok page.
Proof.
  destruct page as [startAt maxResults total issues]. simpl.
  intros Hs Hm Ht.
  unfold parse, GetIssuesByComponentsResponseSchema, encode_page, z_object,
    field, z_array.
  cbn -[parse_elements].
  rewrite parse_elements_encode_issues.
  destruct startAt, maxResults, total; try congruence; reflexivity.
Qed.

Lemma ComponentSchema_same_keys path v v' :
  same_component_keys v v' ->
  ComponentSchema path (Some v) = ComponentSchema path (Some v').
Proof.
  intros (o & o' & -> & -> & Hid & Hname & Hlead).
  unfold ComponentSchema, z_object, field. rewrite Hid, Hname, Hlead.
  reflexivity.
Qed.

Lemma parse_elements_same_keys path elements elements' :
  Forall2 same_component_keys elements elements' ->
  forall i,
    parse_elements ComponentSchema path i elements
    = parse_elements ComponentSchema path i elements'.
Proof.
  induction 1 as [| v v' rest rest' Hv Hrest IH]; intros i; [reflexivity |].
  cbn [parse_elements].
  rewrite (ComponentSchema_same_keys _ v v' Hv), IH. reflexivity.
Qed.

(** [getComponents] reads only [id], [name] and [lead] of each element:
    two bodies whose elements agree, one by one, on these three
    properties give the same result, whatever other properties the
    elements have. *)
Theorem getComponents_ignores_other_keys network network' config log res res'
  (elements elements' : list JSValue) :
  network (components_url config) = Replied res ->
  network' (components_url config) = Replied res' ->
  status res = 200 -> status res' = 200 ->
  body res = Some (JArray elements) -> body res' = Some (JArray elements') ->
  Forall2 same_component_keys elements elements' ->
  getComponents network config log = getComponents network' config log.
Proof.
  intros Hn Hn' Hs Hs' Hb Hb' Hsame.
  rewrite (getComponents_replied network config log res Hn),
          (getComponents_replied network' config log res' Hn').
  rewrite Hs, Hs', Hb, Hb'. change (negb (200 =? 200)) with false. cbv iota.
  unfold parse, GetComponentsResponseSchema, z_array.
  rewrite (parse_elements_same_keys [] elements elements' Hsame). reflexivity.
Qed.

(** A component whose [lead] is [null] instead of being absent is not
    accepted: with one such element in a 200 body, [getComponents]
    fails with a [ZodError]. *)
Theorem getComponents_null_lead network config log res elements o :
  network (components_url config) = Replied res ->
  status res = 200 -> body res = Some (JArray elements) ->
  In (JObject o) elements -> get_property "lead" o = Some JNull ->
  exists issues,
    issues <> [] /\
    getComponents network config log
    = (Err (ZodError issues), log ++ [components_url config]).
Proof.
  intros Hn Hs Hb Hin Hlead.
  assert (Hshape : is_component_list (JArray elements) = false).
  { simpl. destruct (forallb is_component elements) eqn:Hall; [| reflexivity].
    exfalso. pose proof (proj1 (forallb_forall _ _) Hall _ Hin) as Hc.
    simpl in Hc. rewrite Hlead in Hc. simpl in Hc.
    rewrite andb_false_r in Hc. discriminate. }
  destruct (parse_not_component_list _ Hshape) as (issues & Hne & Hp).
  exists issues. split; [exact Hne |].
  rewrite (getComponents_replied network config log res Hn), Hs, Hb, Hp.
  reflexivity.
Qed.

(** ** The client: requests sent, errors, completion order *)

(** [getComponents] sends its one request whatever the reply is, and an
    unreachable tracker or a body that is not JSON ends it with the
    error of the HTTP layer. *)
Theorem getComponents_single_request network config log :
  snd (getComponents network config log) = log ++ [components_url config] /\
  (forall reason,
     network (components_url config) = Unreachable reason ->
     fst (getComponents network config log) = Err (TransportError reason)) /\
  (forall res,
     network (components_url config) = Replied res ->
     status res = 200 -> body res = None ->
     exists message,
       fst (getComponents network config log) = Err (TransportError message)).
Proof.
  destruct (network (components_url config)) as [res | reason] eqn:Hn.
  - rewrite (getComponents_replied network config log res Hn).
    split; [reflexivity |]. split; [discriminate |].
    intros res' Heq Hs Hb. injection Heq as <-. rewrite Hs, Hb.
    eexists. reflexivity.
  - unfold getComponents, fetch, send, bind, ret, throw, lift.
    unfold components_url in Hn. rewrite Hn.
    split; [reflexivity |]. split; [| discriminate].
    intros reason' Heq. injection Heq as <-. reflexivity.
Qed.

(** The two phases of [getIssuesByComponents]. *)
Lemma getIssuesByComponents_phases network config componentIds order log :
  getIssuesByComponents network config componentIds order log
  = let url := search_url config componentIds in
    match first_page_result url (network (UrlObject url)) with
    | Err e => (Err e, log ++ [UrlObject url])
    | Ok (batch, windows) =>
        (match Promise_all (settled_pages network url windows) order with
         | Err e => Err e
         | Ok batches => Ok (concat (batch :: batches))
         end,
         log ++ UrlObject url :: map UrlObject (page_urls url windows))
    end.
Proof.
  cbv zeta. unfold first_page_result.
  destruct (network (UrlObject (search_url config componentIds)))
    as [res | reason] eqn:Hn.
  - destruct (Z.eq_dec (status res) 200) as [Hs | Hs].
    + rewrite Hs. change (negb (200 =? 200)) with false. cbv iota.
      unfold Response_json.
      destruct (body res) as [json |] eqn:Hb.
      * rewrite (getIssuesByComponents_first_page _ _ _ _ _ res json Hn Hs Hb).
        destruct (parse GetIssuesByComponentsResponseSchema json) as [data | e];
          [| reflexivity].
        destruct (createPaginationChunks _ _) as [chunks | e]; reflexivity.
      * unfold getIssuesByComponents, fetch, send, bind, ret, throw, lift.
        rewrite Hn, Hs. change (negb (200 =? 200)) with false. cbv beta iota.
        unfold Response_json. rewrite Hb. reflexivity.
    + rewrite (getIssuesByComponents_first_status _ _ _ _ _ res Hn Hs).
      replace (status res =? 200) with false
        by (symmetry; apply Z.eqb_neq; exact Hs).
      reflexivity.
  - unfold getIssuesByComponents, fetch, send, bind, ret, throw, lift.
    rewrite Hn. reflexivity.
Qed.

Lemma planner_guard x y :
  Number_isSafeInteger x = false \/ number_leb x (of_Z 0) = true \/
  Number_isSafeInteger y = false \/ number_ltb y (of_Z 0) = true ->
  exists message, createPaginationChunks x y = Err (TypeError message).
Proof.
  intros H. unfold createPaginationChunks.
  destruct (negb (Number_isSafeInteger x) || number_leb x (of_Z 0)) eqn:Hx;
    [eauto |].
  destruct (negb (Number_isSafeInteger y) || number_ltb y (of_Z 0)) eqn:Hy;
    [eauto |].
  exfalso.
  apply orb_false_iff in Hx. destruct Hx as [Hx1 Hx2].
  apply orb_false_iff in Hy. destruct Hy as [Hy1 Hy2].
  apply negb_false_iff in Hx1. apply negb_false_iff in Hy1.
  destruct H as [H | [H | [H | H]]]; congruence.
Qed.

(** A first page that passes validation but whose [maxResults] is not a
    positive safe integer, or whose [total] is not a non-negative safe
    integer, ends the operation with the planner's [TypeError]; only
    the first request has been sent. *)
Theorem first_page_not_plannable network config componentIds order log
  res json data :
  network (UrlObject (search_url config componentIds)) = Replied res ->
  status res = 200 -> body res = Some json ->
  parse GetIssuesByComponentsResponseSchema json = Ok data ->
  Number_isSafeInteger (IssuePage.maxResults data) = false \/
  number_leb (IssuePage.maxResults data) (of_Z 0) = true \/
  Number_isSafeInteger (IssuePage.total data) = false \/
  number_ltb (IssuePage.total data) (of_Z 0) = true ->
  exists message,
    getIssuesByComponents network config componentIds order log
    = (Err (TypeError message),
       log ++ [UrlObject (search_url config componentIds)]).
Proof.
  intros Hn Hs Hb Hp Hbad.
  destruct (planner_guard _ _ Hbad) as [message Hplan].
  exists message.
  rewrite (getIssuesByComponents_first_page _ _ _ _ _ res json Hn Hs Hb), Hp,
    Hplan.
  reflexivity.
Qed.

(** The requests that are sent depend on the reply to the first request
    only: not on the replies to the page requests, and not on the order
    in which these complete. *)
Theorem requests_decided_by_first_reply network network' config componentIds
  order order' log :
  network (UrlObject (search_url config componentIds))
  = network' (UrlObject (search_url config componentIds)) ->
  snd (getIssuesByComponents network config componentIds order log)
  = snd (getIssuesByComponents network' config componentIds order' log).
Proof.
  intros H. rewrite !getIssuesByComponents_phases. cbv zeta. rewrite H.
  destruct (first_page_result _ _) as [[batch windows] | e]; reflexivity.
Qed.

(** After a valid first page with a positive safe integer page size
    [P] and a non-negative safe integer total [T], and with
    [c = ceil(T / P)]: when [c] is not more than the longest array the
    engine builds, [max(1, c)] requests have been sent in all; when it
    is more, the planner throws [RangeError], which ends the operation
    after the first request. *)
Theorem request_count network config componentIds order log res json data
  P T c :
  network (UrlObject (search_url config componentIds)) = Replied res ->
  status res = 200 -> body res = Some json ->
  parse GetIssuesByComponentsResponseSchema json = Ok data ->
  is_integer_value (IssuePage.maxResults data) P ->
  is_integer_value (IssuePage.total data) T ->
  0 < P <= MAX_SAFE_INTEGER -> 0 <= T <= MAX_SAFE_INTEGER ->
  P * (c - 1) < T <= P * c ->
  (c <= longest_array ->
   Z.of_nat (length (snd (getIssuesByComponents network config componentIds
                            order log)))
   = Z.of_nat (length log) + Z.max 1 c) /\
  (longest_array < c ->
   exists message,
     getIssuesByComponents network config componentIds order log
     = (Err (RangeError message),
        log ++ [UrlObject (search_url config componentIds)])).
Proof.
  intros Hn Hs Hb Hp HP HT HPr HTr Hc.
  rewrite (getIssuesByComponents_first_page _ _ _ _ _ res json Hn Hs Hb), Hp.
  rewrite (createPaginationChunks_safe _ _ P T HP HT HPr HTr).
  rewrite (Math_ceil_div_unique T P c) by lia.
  split; intros Hmax;
    [| apply Z.ltb_lt in Hmax; rewrite Hmax;
       exists "Invalid array length"; reflexivity].
  replace (longest_array <? c) with false by within_limit.
  cbv zeta. cbn [snd].
  rewrite length_app. cbn [length]. rewrite length_map, length_page_urls.
  assert (Hc0 : 0 <= c) by nia.
  assert (Hlen : Z.of_nat (length (map (chunk P T c) (indices c))) = c)
    by (rewrite length_map; apply length_indices; exact Hc0).
  destruct (map (chunk P T c) (indices c)) as [| w rest];
    cbn [tail tl length] in *; lia.
Qed.



Lemma first_rejection_None_inv {A} (settled : list (Result A)) : forall order,
  first_rejection order settled = None ->
  forall i e, In i order -> nth_error settled i <> Some (Err e).
Proof.
  intros order Hnone i e Hin Hi.
  destruct (first_rejection_In settled i e order Hin Hi) as [e' He'].
  congruence.
Qed.

Lemma Promise_all_Ok_inv {A} (settled : list (Result A)) order values :
  Promise_all settled order = Ok values -> settled = map Ok values.
Proof.
  unfold Promise_all.
  destruct (first_rejection (order ++ seq 0 (length settled)) settled)
    as [e |] eqn:Hfirst; [discriminate |].
  intros H. injection H as <-.
  assert (Hall : forall i e, nth_error settled i <> Some (Err e)).
  { intros i e Hi.
    assert (Hlt : (i < length settled)%nat)
      by (apply nth_error_Some; congruence).
    apply (first_rejection_None_inv settled _ Hfirst i e); [| exact Hi].
    apply in_or_app. right. apply in_seq. lia. }
  clear Hfirst. unfold fulfilled_values.
  induction settled as [| r rest IH]; [reflexivity |].
  assert (Hrest : forall i e, nth_error rest i <> Some (Err e))
    by (intros i e; exact (Hall (S i) e)).
  destruct r as [v | e].
  - cbn [flat_map app map]. rewrite <- (IH Hrest). reflexivity.
  - exfalso. exact (Hall 0%nat e eq_refl).
Qed.

(** Whether the operation succeeds does not depend on the order in
    which the page requests complete: a run that succeeds under one
    order gives the same issues and the same requests under every
    order, and a run that fails under one order fails under every
    order. *)
Theorem outcome_independent_of_order network config componentIds order order'
  log :
  (forall issues,
     fst (getIssuesByComponents network config componentIds order log)
     = Ok issues ->
     getIssuesByComponents network config componentIds order' log
     = getIssuesByComponents network config componentIds order log) /\
  (forall e,
     fst (getIssuesByComponents network config componentIds order log)
     = Err e ->
     exists e',
       fst (getIssuesByComponents network config componentIds order' log)
       = Err e').
Proof.
  assert (Hsame : forall o o' issues,
    fst (getIssuesByComponents network config componentIds o log) = Ok issues ->
    getIssuesByComponents network config componentIds o' log
    = getIssuesByComponents network config componentIds o log).
  { intros o o' issues. rewrite !getIssuesByComponents_phases. cbv zeta.
    destruct (first_page_result _ _) as [[batch windows] | e];
      [| reflexivity].
    cbn [fst].
    destruct (Promise_all (settled_pages network _ windows) o)
      as [batches |] eqn:Hall; [| discriminate].
    intros _. apply Promise_all_Ok_inv in Hall. rewrite Hall.
    rewrite Promise_all_fulfilled. reflexivity. }
  split.
  - intros issues. apply Hsame.
  - intros e He.
    destruct (fst (getIssuesByComponents network config componentIds order' log))
      as [issues | e'] eqn:Hrun'; [| eauto].
    rewrite (Hsame order' order issues Hrun') in He. congruence.
Qed.

Lemma parse_error_is_ZodError {A} (schema : ZodType A) json e :
  parse schema json = Err e -> exists issues, e = ZodError issues.
Proof.
  unfold parse. destruct (schema [] (Some json)) as [data | issues];
    [discriminate |].
  intros H. injection H as <-. eauto.
Qed.

Lemma planner_error_kind x y e :
  createPaginationChunks x y = Err e ->
  exists message, e = TypeError message \/ e = RangeError message.
Proof.
  unfold createPaginationChunks.
  destruct (negb (Number_isSafeInteger x) || number_leb x (of_Z 0));
    [intros H; injection H as <-; eauto |].
  destruct (negb (Number_isSafeInteger y) || number_ltb y (of_Z 0));
    [intros H; injection H as <-; eauto |].
  cbv zeta. destruct (longest_array <? _); [| discriminate].
  intros H; injection H as <-; eauto.
Qed.

Lemma page_resume_JiraResponseError url reply u s m :
  page_resume url reply = Err (JiraResponseError u s m) ->
  u = UrlObject url /\ s <> 200 /\
  exists res, reply = Replied res /\ status res = s /\ statusText res = m.
Proof.
  unfold page_resume. destruct reply as [res | reason]; [| discriminate].
  destruct (Z.eqb_spec (status res) 200) as [H200 | Hne]; cbn [negb].
  - unfold Response_json. destruct (body res) as [json |]; [| discriminate].
    destruct (parse GetIssuesByComponentsResponseSchema json) as [data | e]
      eqn:Hp; [discriminate |].
    destruct (parse_error_is_ZodError _ _ _ Hp) as [issues ->]. discriminate.
  - intros H. injection H as <- <- <-. repeat split; [exact Hne |].
    exists res. repeat split.
Qed.

(** A [JiraResponseError] thrown by [getIssuesByComponents] never has
    status 200, and the URL it carries is the one of the last request
    that was sent (for a refused page request this is the request of
    the last window, whichever page was refused). *)
Theorem JiraResponseError_names_last_request network config componentIds order
  log u s m :
  fst (getIssuesByComponents network config componentIds order log)
  = Err (JiraResponseError u s m) ->
  s <> 200 /\
  exists sent,
    snd (getIssuesByComponents network config componentIds order log)
    = sent ++ [u].
Proof.
  rewrite getIssuesByComponents_phases. cbv zeta.
  destruct (first_page_result _ _) as [[batch windows] | e0] eqn:Hfirst.
  - cbn [fst snd].
    destruct (Promise_all (settled_pages network _ windows) order)
      as [batches | e1] eqn:Hall; [discriminate |].
    intros H. injection H as ->.
    unfold Promise_all in Hall.
    destruct (first_rejection _ _) as [e2 |] eqn:Hrej; [| discriminate].
    injection Hall as ->.
    destruct (first_rejection_Some _ _ _ Hrej) as (i & _ & _ & _ & Hi & _).
    unfold settled_pages in Hi. rewrite nth_error_map in Hi.
    destruct (nth_error (page_urls (search_url config componentIds) windows) i)
      as [page |] eqn:Hpage; [| discriminate].
    cbn [option_map] in Hi. injection Hi as Hi.
    apply page_resume_JiraResponseError in Hi.
    destruct Hi as (-> & Hne & _). split; [exact Hne |].
    assert (Hnonempty : page_urls (search_url config componentIds) windows <> [])
      by (intros Hnil; rewrite Hnil in Hpage; destruct i; discriminate).
    exists (log ++ UrlObject (search_url config componentIds)
                :: map UrlObject
                     (removelast (page_urls (search_url config componentIds)
                                            windows))).
    rewrite (app_removelast_last (search_url config componentIds) Hnonempty)
      at 1.
    rewrite map_app. cbn [map]. rewrite <- app_assoc. reflexivity.
  - cbn [fst snd]. intros H. injection H as ->.
    unfold first_page_result in Hfirst.
    destruct (network (UrlObject (search_url config componentIds)))
      as [res | reason]; [| discriminate].
    destruct (Z.eqb_spec (status res) 200) as [H200 | Hne];
      cbn [negb] in Hfirst.
    + exfalso. unfold Response_json in Hfirst.
      destruct (body res) as [json |]; [| discriminate].
      destruct (parse GetIssuesByComponentsResponseSchema json)
        as [data | e1] eqn:Hp.
      * destruct (createPaginationChunks _ _) as [chunks | e2] eqn:Hplan;
          [discriminate |].
        destruct (planner_error_kind _ _ _ Hplan) as [m' [-> | ->]];
          discriminate.
      * destruct (parse_error_is_ZodError _ _ _ Hp) as [issues ->].
        discriminate.
    + injection Hfirst as <- <- <-. split; [exact Hne | eauto].
Qed.

(** After a valid first page that announces further pages, if every
    page request is answered with a status other than 200, the
    operation fails with a [JiraResponseError], whatever the order in
    which the requests complete. *)
Theorem refused_pages_fail_the_fetch network config componentIds order log
  res json data chunks :
  network (UrlObject (search_url config componentIds)) = Replied res ->
  status res = 200 -> body res = Some json ->
  parse GetIssuesByComponentsResponseSchema json = Ok data ->
  createPaginationChunks (IssuePage.maxResults data) (IssuePage.total data)
  = Ok chunks ->
  tail chunks <> [] ->
  (forall page,
     In page (page_urls (search_url config componentIds) (tail chunks)) ->
     exists r, network (UrlObject page) = Replied r /\ status r <> 200) ->
  exists u s m,
    fst (getIssuesByComponents network config componentIds order log)
    = Err (JiraResponseError u s m) /\ s <> 200.
Proof.
  intros Hn Hs Hb Hp Hc Hmore Hrefused.
  rewrite (getIssuesByComponents_first_page _ _ _ _ _ res json Hn Hs Hb), Hp, Hc.
  cbv zeta. cbn [fst].
  set (url := search_url config componentIds) in *.
  set (pages := page_urls url (tail chunks)) in *.
  set (outcomes := map _ pages).
  assert (Hkind : forall i e,
    nth_error outcomes i = Some (Err e) ->
    exists u s m, e = JiraResponseError u s m /\ s <> 200).
  { intros i e Hi. subst outcomes. rewrite nth_error_map in Hi.
    destruct (nth_error pages i) as [page |] eqn:Hpage; [| discriminate].
    cbn [option_map] in Hi. injection Hi as Hi.
    destruct (Hrefused page (nth_error_In _ _ Hpage)) as (r & Hr & Hne).
    unfold page_resume in Hi. rewrite Hr in Hi.
    replace (status r =? 200) with false in Hi
      by (symmetry; apply Z.eqb_neq; exact Hne).
    cbn [negb] in Hi. injection Hi as <-. eauto. }
  assert (Hfirst : exists e, nth_error outcomes 0 = Some (Err e)).
  { subst outcomes pages.
    destruct (tail chunks) as [| w rest]; [congruence |].
    cbn [page_urls map nth_error].
    destruct (Hrefused (with_window url w)) as (r & Hr & Hne);
      [left; reflexivity |].
    unfold page_resume. rewrite Hr.
    replace (status r =? 200) with false
      by (symmetry; apply Z.eqb_neq; exact Hne).
    cbn [negb]. eauto. }
  destruct Hfirst as [e0 He0].
  destruct (Promise_all_rejected outcomes order 0%nat e0 He0)
    as (i & e & Hall & Hi & _).
  rewrite Hall.
  destruct (Hkind i e Hi) as (u & s & m & -> & Hne). eauto.
Qed.

(** ** The requests differ in their windows only *)

Lemma with_window_param_names url w :
  occurrences "startAt" (param_names url) = 1%nat ->
  occurrences "maxResults" (param_names url) = 1%nat ->
  param_names (with_window url w) = param_names url.
Proof.
  intros Hs Hm. unfold with_window, searchParams_set, param_names in *.
  cbn [searchParams] in *. rewrite params_set_names.
  - apply params_set_names. exact Hs.
  - rewrite occurrences_set_other by discriminate. exact Hm.
Qed.

Lemma page_urls_keep windows : forall url page,
  occurrences "startAt" (param_names url) = 1%nat ->
  occurrences "maxResults" (param_names url) = 1%nat ->
  In page (page_urls url windows) ->
  origin_and_path page = origin_and_path url /\
  param_names page = param_names url /\
  (forall k, k <> "startAt" -> k <> "maxResults" ->
     params_get k (searchParams page) = params_get k (searchParams url)).
Proof.
  induction windows as [| w rest IH]; intros url page Hs Hm Hin;
    [destruct Hin |].
  pose proof (with_window_param_names url w Hs Hm) as Hnames.
  destruct (with_window_params url w) as (_ & _ & Haddress & Hkeep).
  destruct Hin as [<- | Hin]; [auto |].
  destruct (IH (with_window url w) page) as (Ha & Hn & Hk);
    [rewrite Hnames; exact Hs | rewrite Hnames; exact Hm | exact Hin |].
  split; [congruence |]. split; [congruence |].
  intros k H1 H2. rewrite (Hk k H1 H2). apply Hkeep; assumption.
Qed.

Lemma search_url_names config componentIds k :
  In k ["startAt"; "maxResults"; "validateQuery"; "fields"; "jql"] ->
  occurrences k (param_names (search_url config componentIds)) = 1%nat.
Proof.
  unfold search_url, searchParams_set, param_names. cbn [searchParams].
  intros [<- | [<- | [<- | [<- | [<- | []]]]]];
    rewrite ?occurrences_set_other by discriminate;
    apply occurrences_set_same.
Qed.

(** Every request of [getIssuesByComponents] differs from the first one
    in the values of [startAt] and [maxResults] at most. It has the
    address of the first request and the same parameter names in the
    same order, among them [startAt], [maxResults], [validateQuery],
    [fields] and [jql] once each; every parameter but the two has the
    value it has in the first request, so [validateQuery] is [strict],
    [fields] is [id,components] and [jql] is the query for the given
    ids. Writing the windows into the URL object replaces two values
    and neither adds nor drops a parameter, whatever parameters the
    base URL came with. *)
Theorem requests_differ_in_window_only network config componentIds order log u :
  In (UrlObject u)
     (skipn (length log)
            (snd (getIssuesByComponents network config componentIds order log))) ->
  origin_and_path u = origin_and_path (search_url config componentIds) /\
  param_names u = param_names (search_url config componentIds) /\
  (forall k,
     In k ["startAt"; "maxResults"; "validateQuery"; "fields"; "jql"] ->
     occurrences k (param_names u) = 1%nat) /\
  (forall k, k <> "startAt" -> k <> "maxResults" ->
     params_get k (searchParams u)
     = params_get k (searchParams (search_url config componentIds))) /\
  params_get "validateQuery" (searchParams u) = Some "strict" /\
  params_get "fields" (searchParams u) = Some "id,components" /\
  params_get "jql" (searchParams u) = Some (jql_of config componentIds).
Proof.
  destruct (getIssuesByComponents_log network config componentIds order log)
    as [windows ->].
  rewrite skipn_app, skipn_all, Nat.sub_diag. cbn [skipn app].
  intros Hin.
  assert (Hfirst :
    origin_and_path u = origin_and_path (search_url config componentIds) /\
    param_names u = param_names (search_url config componentIds) /\
    (forall k, k <> "startAt" -> k <> "maxResults" ->
       params_get k (searchParams u)
       = params_get k (searchParams (search_url config componentIds)))).
  { destruct Hin as [Heq | Hin].
    - injection Heq as <-. auto.
    - apply in_map_iff in Hin. destruct Hin as (page & Heq & Hin).
      injection Heq as ->.
      apply (page_urls_keep windows (search_url config componentIds));
        [apply search_url_names; simpl; tauto
        | apply search_url_names; simpl; tauto
        | exact Hin]. }
  destruct Hfirst as (Haddress & Hnames & Hkeep).
  split; [exact Haddress |]. split; [exact Hnames |]. split.
  { intros k Hk. rewrite Hnames. apply search_url_names. exact Hk. }
  split; [exact Hkeep |].
  rewrite !Hkeep by discriminate.
  unfold search_url, searchParams_set, jql_of. cbn [searchParams].
  repeat split;
    rewrite ?params_get_set_other by discriminate;
    apply params_get_set_same.
Qed.

(** ** The aggregation *)

Lemma getComponents_log network config log :
  snd (getComponents network config log) = log ++ [components_url config].
Proof.
  destruct (network (components_url config)) as [res | reason] eqn:Hn.
  - rewrite (getComponents_replied network config log res Hn). reflexivity.
  - unfold getComponents, fetch, send, bind, ret, throw, lift.
    unfold components_url in Hn. rewrite Hn. reflexivity.
Qed.

(** The errors of both fetches reach the caller of
    [getJiraComponentsWithoutLead] unchanged and in place of any
    report: a failure of [getComponents] ends the run after that one
    request, and a failure of [getIssuesByComponents] ends it with that
    error and no entry. *)
Theorem aggregation_propagates_errors network baseUrl projectId order log :
  (forall e log1,
     getComponents network (mkConfig baseUrl projectId) log = (Err e, log1) ->
     getJiraComponentsWithoutLead network baseUrl projectId order log
     = (Err e, log ++ [components_url (mkConfig baseUrl projectId)])) /\
  (forall components log1 e log2,
     getComponents network (mkConfig baseUrl projectId) log
     = (Ok components, log1) ->
     List.filter without_lead components <> [] ->
     getIssuesByComponents network (mkConfig baseUrl projectId)
       (map Component.id (List.filter without_lead components)) order log1
     = (Err e, log2) ->
     getJiraComponentsWithoutLead network baseUrl projectId order log
     = (Err e, log2)).
Proof.
  split.
  - intros e log1 H.
    pose proof (getComponents_log network (mkConfig baseUrl projectId) log)
      as Hlog.
    rewrite H in Hlog. cbn [snd] in Hlog. subst log1.
    unfold getJiraComponentsWithoutLead. unfold bind at 1. rewrite H.
    reflexivity.
  - intros components log1 e log2 Hc Hne Hi.
    rewrite (getJiraComponentsWithoutLead_run _ _ _ _ _ _ _ Hc).
    destruct (List.filter without_lead components) as [| c unled];
      [congruence |].
    cbv zeta. rewrite Hi. reflexivity.
Qed.

Lemma occurrences_flat_map_Permutation id (issues issues' : list Issue.t) :
  Permutation issues issues' ->
  occurrences id (flat_map component_ids issues)
  = occurrences id (flat_map component_ids issues').
Proof.
  induction 1 as [| issue l l' _ IH | a b l | l l' l'' _ IH1 _ IH2].
  - reflexivity.
  - cbn [flat_map]. rewrite !occurrences_app, IH. reflexivity.
  - cbn [flat_map]. rewrite !occurrences_app. lia.
  - congruence.
Qed.

(** The report does not depend on the order of the issues: it is the
    same for any rearrangement of the fetched issue list, such as
    another order of the pages. *)
Theorem report_ignores_issue_order unled (issues issues' : list Issue.t) :
  Permutation issues issues' ->
  report unled issues = report unled issues'.
Proof.
  intros Hperm. rewrite !report_entries. apply map_ext. intros c.
  unfold count_references.
  rewrite (occurrences_flat_map_Permutation _ _ _ Hperm). reflexivity.
Qed.

Lemma occurrences_zero id ids : occurrences id ids = 0%nat <-> ~ In id ids.
Proof.
  induction ids as [| id' rest IH].
  - split; [intros _ [] | reflexivity].
  - rewrite occurrences_cons.
    destruct (String.eqb_spec id id') as [-> | Hne].
    + split; [discriminate | intros H; exfalso; apply H; left; reflexivity].
    + cbn [Nat.add]. rewrite IH. split.
      * intros H [Heq | Hin]; [congruence | exact (H Hin)].
      * intros H Hin. apply H. right. exact Hin.
Qed.

Lemma count_components_lookup_exact id components :
  forall counts : gmap string nat,
  count_components counts components !! id
  = if (occurrences id (map IssueComponent.id components) =? 0)%nat
    then counts !! id
    else Some (default 0%nat (counts !! id)
               + occurrences id (map IssueComponent.id components))%nat.
Proof.
  induction components as [| c rest IH]; intros counts; [reflexivity |].
  change (count_components counts (c :: rest))
    with (count_components
            (<[IssueComponent.id c :=
                 (default 0%nat (counts !! IssueComponent.id c) + 1)%nat]> counts)
            rest).
  rewrite IH. cbn [map]. rewrite occurrences_cons.
  destruct (String.eqb_spec id (IssueComponent.id c)) as [-> | Hne].
  - rewrite lookup_insert_eq.
    change (default 0%nat
              (Some (default 0%nat (counts !! IssueComponent.id c) + 1)%nat))
      with (default 0%nat (counts !! IssueComponent.id c) + 1)%nat.
    destruct (occurrences (IssueComponent.id c) (map IssueComponent.id rest))
      as [| n]; cbn [Nat.eqb Nat.add]; f_equal; lia.
  - rewrite lookup_insert_ne by congruence. reflexivity.
Qed.

Lemma issues_count_lookup_exact id issues : forall counts : gmap string nat,
  fold_left
    (fun m issue => count_components m (Fields.components (Issue.fields issue)))
    issues counts !! id
  = if (occurrences id (flat_map component_ids issues) =? 0)%nat
    then counts !! id
    else Some (default 0%nat (counts !! id)
               + occurrences id (flat_map component_ids issues))%nat.
Proof.
  induction issues as [| issue rest IH]; intros counts; [reflexivity |].
  cbn [fold_left flat_map]. rewrite IH, occurrences_app.
  rewrite count_components_lookup_exact. fold (component_ids issue).
  destruct (occurrences id (component_ids issue)) as [| n];
    destruct (occurrences id (flat_map component_ids rest)) as [| k];
    cbn [Nat.eqb Nat.add default]; try reflexivity; f_equal;
    unfold Datatypes.id; lia.
Qed.

(** The map built by the counting loop has a key exactly for the
    component ids that occur in the issues, and the value under a key
    is the number of its occurrences, never zero. *)
Theorem counts_map_holds_referenced_ids issues id :
  issuesCountByComponentId issues !! id
  = (if (count_references id issues =? 0)%nat then None
     else Some (count_references id issues)) /\
  (issuesCountByComponentId issues !! id = None <->
   forall issue, In issue issues -> ~ In id (component_ids issue)).
Proof.
  assert (Hlookup : issuesCountByComponentId issues !! id
                    = if (count_references id issues =? 0)%nat then None
                      else Some (count_references id issues)).
  { unfold issuesCountByComponentId, count_references.
    rewrite issues_count_lookup_exact, lookup_empty. reflexivity. }
  split; [exact Hlookup |].
  rewrite Hlookup. unfold count_references.
  destruct (Nat.eqb_spec (occurrences id (flat_map component_ids issues)) 0)
    as [Hz | Hnz].
  - split; [| reflexivity]. intros _ issue Hin Hid.
    apply occurrences_zero in Hz. apply Hz.
    apply in_flat_map. exists issue. split; assumption.
  - split; [discriminate |]. intros Hnone. exfalso. apply Hnz.
    apply occurrences_zero. intros Hin. apply in_flat_map in Hin.
    destruct Hin as (issue & Hissue & Hid). exact (Hnone issue Hissue Hid).
Qed.

(** When some component has no lead, the search is made for exactly
    the ids of the components without a lead, in the order of the
    component list: every request after the one for the components
    goes to the address that the URL constructor made of the base URL
    followed by [/rest/api/3/search], with the [jql] built from these
    ids, and their list is not empty. *)
Theorem search_names_components_without_lead network baseUrl projectId order
  log components log1 :
  getComponents network (mkConfig baseUrl projectId) log = (Ok components, log1) ->
  List.filter without_lead components <> [] ->
  exists pages,
    snd (getJiraComponentsWithoutLead network baseUrl projectId order log)
    = log1
      ++ UrlObject
           (search_url (mkConfig baseUrl projectId)
              (map Component.id (List.filter without_lead components)))
         :: map UrlObject pages /\
    map Component.id (List.filter without_lead components) <> [] /\
    forall u,
      u = search_url (mkConfig baseUrl projectId)
            (map Component.id (List.filter without_lead components))
      \/ In u pages ->
      origin_and_path u
      = origin_and_path (new_URL (baseUrl +:+ "/rest/api/3/search")) /\
      params_get "jql" (searchParams u)
      = Some (jql_of (mkConfig baseUrl projectId)
                (map Component.id (List.filter without_lead components))).
Proof.
  intros Hc Hne.
  rewrite (getJiraComponentsWithoutLead_run _ _ _ _ _ _ _ Hc).
  destruct (List.filter without_lead components) as [| c unled] eqn:Hf;
    [congruence |].
  cbv zeta.
  set (config := mkConfig baseUrl projectId).
  set (ids := map Component.id (c :: unled)).
  destruct (getIssuesByComponents_log network config ids order log1)
    as [windows Hlog].
  exists (page_urls (search_url config ids) windows).
  split; [| split].
  - destruct (getIssuesByComponents network config ids order log1)
      as [[issues | e] log2]; exact Hlog.
  - discriminate.
  - assert (Hjql : params_get "jql" (searchParams (search_url config ids))
                   = Some (jql_of config ids))
      by apply params_get_set_same.
    intros u [-> | Hin]; [split; [reflexivity | exact Hjql] |].
    apply In_nth_error in Hin. destruct Hin as [i Hi].
    assert (Hlt : (i < length windows)%nat).
    { rewrite <- (length_page_urls windows (search_url config ids)).
      apply nth_error_Some. congruence. }
    destruct (nth_error windows i) as [w |] eqn:Hw;
      [| apply nth_error_None in Hw; lia].
    destruct (page_urls_nth windows (search_url config ids) i w Hw)
      as (page & Hpage & _ & _ & Haddress & Hkeep).
    rewrite Hi in Hpage. injection Hpage as <-.
    split; [exact Haddress |].
    rewrite (Hkeep "jql") by discriminate. exact Hjql.
Qed.

(** An unreachable tracker, or a first body that is not JSON, ends
    [getIssuesByComponents] with the error of the HTTP layer; only the
    first request has been sent. *)
Theorem first_request_transport_errors network config componentIds order log :
  (forall reason,
     network (UrlObject (search_url config componentIds)) = Unreachable reason ->
     getIssuesByComponents network config componentIds order log
     = (Err (TransportError reason),
        log ++ [UrlObject (search_url config componentIds)])) /\
  (forall res,
     network (UrlObject (search_url config componentIds)) = Replied res ->
     status res = 200 -> body res = None ->
     exists message,
       getIssuesByComponents network config componentIds order log
       = (Err (TransportError message),
          log ++ [UrlObject (search_url config componentIds)])).
Proof.
  split.
  - intros reason Hn. rewrite getIssuesByComponents_phases. cbv zeta.
    rewrite Hn. reflexivity.
  - intros res Hn Hs Hb. rewrite getIssuesByComponents_phases. cbv zeta.
    rewrite Hn. unfold first_page_result, Response_json. rewrite Hs, Hb.
    eexists. reflexivity.
Qed.

End Engine.

(* ================================================================== *)
(** * Instances: the properties at concrete inputs *)
(* ================================================================== *)

(** The cases of [createPaginationChunks.test.ts]. *)
Example planner_negative_page_size :
  createPaginationChunks example_array_limit (of_Z (-10)) (of_Z 100)
  = Err (TypeError "Option 'pageSize' needs to be a positive safe integer.").
Proof. reflexivity. Qed.

Example planner_negative_total :
  createPaginationChunks example_array_limit (of_Z 10) (of_Z (-100))
  = Err (TypeError "Option 'total' needs to be a non-negative safe integer.").
Proof. reflexivity. Qed.

Example planner_unequal_pages :
  createPaginationChunks example_array_limit (of_Z 10) (of_Z 25)
  = Ok [mkWindow 0 10; mkWindow 10 10; mkWindow 20 5].
Proof. reflexivity. Qed.

Example planner_equal_pages :
  createPaginationChunks example_array_limit (of_Z 2) (of_Z 8)
  = Ok [mkWindow 0 2; mkWindow 2 2; mkWindow 4 2; mkWindow 6 2].
Proof. reflexivity. Qed.

Example planner_fractional_page_size :
  createPaginationChunks example_array_limit (Finite (5 # 2)) (of_Z 8)
  = Err (TypeError "Option 'pageSize' needs to be a positive safe integer.").
Proof. reflexivity. Qed.

Lemma planner_tiles_total_witness :
  (exists windows,
     createPaginationChunks example_array_limit (of_Z 10) (of_Z 25) = Ok windows
         /\
     Z.of_nat (length windows) = 3 /\
     tiles 0 windows 25 /\
     (forall i w, nth_error windows i = Some w ->
        startAt w = Z.of_nat i * 10 /\
        pageSize w = if Z.of_nat i =? 3 - 1 then 25 - 10 * (3 - 1) else 10) /\
     sum_of_sizes windows = 25 /\
     (25 = 0 -> windows = [])) /\
  (exists message,
     createPaginationChunks example_array_limit (of_Z 1) (of_Z (2 ^ 21))
     = Err (RangeError message)).
Proof.
  assert (H1 : 0 < 1 <= MAX_SAFE_INTEGER) by (unfold MAX_SAFE_INTEGER; lia).
  assert (H10 : 0 < 10 <= MAX_SAFE_INTEGER) by (unfold MAX_SAFE_INTEGER; lia).
  assert (H25 : 0 <= 25 <= MAX_SAFE_INTEGER) by (unfold MAX_SAFE_INTEGER; lia).
  assert (Hbig : 0 <= 2 ^ 21 <= MAX_SAFE_INTEGER)
    by (unfold MAX_SAFE_INTEGER; lia).
  split.
  - apply (planner_tiles_total example_array_limit (of_Z 10) (of_Z 25) 10 25 3
             (is_integer_value_of_Z 10) (is_integer_value_of_Z 25) H10 H25
             ltac:(lia)).
    unfold longest_array, MAX_ARRAY_LENGTH, example_array_limit. lia.
  - apply (planner_tiles_total example_array_limit (of_Z 1) (of_Z (2 ^ 21))
             1 (2 ^ 21) (2 ^ 21)
             (is_integer_value_of_Z 1) (is_integer_value_of_Z (2 ^ 21)) H1 Hbig
             ltac:(lia)).
    unfold longest_array, MAX_ARRAY_LENGTH, example_array_limit. lia.
Defined.

(** C2 as stated fails: page size 1 and total [2^32] are safe integers,
    and the planner throws [RangeError] instead of returning windows,
    even on an engine that builds arrays of every length the language
    has. *)
Lemma planner_range_error :
  0 < 1 <= MAX_SAFE_INTEGER /\ 0 <= 2 ^ 32 <= MAX_SAFE_INTEGER /\
  createPaginationChunks MAX_ARRAY_LENGTH (of_Z 1) (of_Z (2 ^ 32))
  = Err (RangeError "Invalid array length").
Proof.
  split; [unfold MAX_SAFE_INTEGER; lia |].
  split; [unfold MAX_SAFE_INTEGER; lia |].
  vm_compute. reflexivity.
Qed.

Lemma planner_invalid_argument_witness :
  (exists message,
     createPaginationChunks example_array_limit (of_Z (-10)) (of_Z 100)
     = Err (TypeError message)) /\
  (forall message,
     createPaginationChunks example_array_limit (of_Z 2) (of_Z 8)
     <> Err (TypeError message)) /\
  (exists windows,
     createPaginationChunks example_array_limit (of_Z 2) (of_Z 8) = Ok windows)
         /\
  (exists message,
     createPaginationChunks example_array_limit (of_Z 2) (of_Z (2 ^ 22))
     = Err (RangeError message)).
Proof.
  assert (H2 : 0 < 2 <= MAX_SAFE_INTEGER) by (unfold MAX_SAFE_INTEGER; lia).
  assert (H8 : 0 <= 8 <= MAX_SAFE_INTEGER) by (unfold MAX_SAFE_INTEGER; lia).
  assert (Hbig : 0 <= 2 ^ 22 <= MAX_SAFE_INTEGER)
    by (unfold MAX_SAFE_INTEGER; lia).
  pose proof (planner_invalid_argument example_array_limit (of_Z (-10))
              (of_Z 100)
                (of_Z 2) (of_Z 8) 2 8 4) as [Hfail Hok].
  pose proof (planner_invalid_argument example_array_limit (of_Z (-10))
              (of_Z 100)
                (of_Z 2) (of_Z (2 ^ 22)) 2 (2 ^ 22) (2 ^ 21)) as [_ Hrange].
  split; [apply Hfail; left; reflexivity |].
  destruct (Hok (is_integer_value_of_Z 2) (is_integer_value_of_Z 8) H2 H8
              ltac:(lia)) as (Hno & Hyes & _).
  destruct (Hrange (is_integer_value_of_Z 2) (is_integer_value_of_Z (2 ^ 22))
              H2 Hbig ltac:(lia)) as (_ & _ & Hthrows).
  split; [exact Hno |]. split.
  - apply Hyes. unfold longest_array, MAX_ARRAY_LENGTH, example_array_limit.
      lia.
  - apply Hthrows.
    unfold longest_array, MAX_ARRAY_LENGTH, example_array_limit. lia.
Defined.

(** C4 as stated fails: page size 2 and total [2^34] are within the
    contract, and the planner fails (with [RangeError]), even on an
    engine that builds arrays of every length the language has. *)
Lemma planner_fails_in_contract :
  is_integer_value (of_Z 2) 2 /\ is_integer_value (of_Z (2 ^ 34)) (2 ^ 34) /\
  0 < 2 <= MAX_SAFE_INTEGER /\ 0 <= 2 ^ 34 <= MAX_SAFE_INTEGER /\
  createPaginationChunks MAX_ARRAY_LENGTH (of_Z 2) (of_Z (2 ^ 34))
  = Err (RangeError "Invalid array length").
Proof.
  split; [apply is_integer_value_of_Z |].
  split; [apply is_integer_value_of_Z |].
  split; [unfold MAX_SAFE_INTEGER; lia |].
  split; [unfold MAX_SAFE_INTEGER; lia |].
  vm_compute. reflexivity.
Qed.

Lemma getComponents_failures_witness :
  getComponents (fun _ => Replied (mkResponse 400 "Bad Request" None))
                (mkConfig "https://xxx.atlassian.net" "XYZ") []
  = (Err (JiraResponseError
            (components_url (mkConfig "https://xxx.atlassian.net" "XYZ"))
            400 "Bad Request"),
     [components_url (mkConfig "https://xxx.atlassian.net" "XYZ")])
  /\
  getComponents
    (fun _ => Replied (mkResponse 200 "OK"
                         (Some (JObject [("abc", JString "xyz")]))))
    (mkConfig "https://xxx.atlassian.net" "XYZ") []
  = (Err (ZodError [mkIssue "array" "object" []]),
     [components_url (mkConfig "https://xxx.atlassian.net" "XYZ")]).
Proof.
  split.
  - apply (getComponents_failures
             (fun _ => Replied (mkResponse 400 "Bad Request" None))
             (mkConfig "https://xxx.atlassian.net" "XYZ") []
             (mkResponse 400 "Bad Request" None) eq_refl).
    simpl. lia.
  - apply (getComponents_failures
             (fun _ => Replied (mkResponse 200 "OK"
                                  (Some (JObject [("abc", JString "xyz")]))))
             (mkConfig "https://xxx.atlassian.net" "XYZ") []
             (mkResponse 200 "OK" (Some (JObject [("abc", JString "xyz")])))
             eq_refl); reflexivity.
Defined.

(** C5 does not hold of the code: a reply with status 200 whose body is
    not JSON does not have the component-list shape, and
    [getComponents] fails with the error of the HTTP layer, thrown by
    [res.json()], which is neither a [ZodError] nor a
    [JiraResponseError]. *)
Lemma getComponents_non_json_body :
  let network := fun _ : UrlValue => Replied not_json in
  status not_json = 200 /\ body not_json = None /\
  (exists message,
     getComponents network example_config []
     = (Err (TransportError message), [components_url example_config])) /\
  (forall issues,
     fst (getComponents network example_config []) <> Err (ZodError issues)) /\
  (forall url status message,
     fst (getComponents network example_config [])
     <> Err (JiraResponseError url status message)).
Proof.
  intros network. split; [reflexivity |]. split; [reflexivity |].
  split; [exists "invalid json response body"; reflexivity |].
  split; intros; discriminate.
Qed.

Lemma getComponents_valid_list_witness :
  exists elements,
    JArray [] = JArray elements /\
    getComponents (fun _ => Replied (mkResponse 200 "OK" (Some (JArray []))))
                  (mkConfig "https://xxx.atlassian.net" "XXX") []
    = (Ok (map component_of elements),
       [] ++ [components_url (mkConfig "https://xxx.atlassian.net" "XXX")]) /\
    (elements = [] ->
     getComponents (fun _ => Replied (mkResponse 200 "OK" (Some (JArray []))))
                   (mkConfig "https://xxx.atlassian.net" "XXX") []
     = (Ok [],
        [] ++ [components_url (mkConfig "https://xxx.atlassian.net" "XXX")]) /\
     getJiraComponentsWithoutLead example_array_limit example_new_URL
       (fun _ => Replied (mkResponse 200 "OK" (Some (JArray []))))
       "https://xxx.atlassian.net" "XXX" [] []
     = (Ok [],
        [] ++ [components_url (mkConfig "https://xxx.atlassian.net" "XXX")])).
Proof.
  apply (getComponents_valid_list example_array_limit example_new_URL
           (fun _ => Replied (mkResponse 200 "OK" (Some (JArray []))))
           "https://xxx.atlassian.net" "XXX" [] []
           (mkResponse 200 "OK" (Some (JArray []))) (JArray []));
    reflexivity.
Defined.

Lemma no_search_when_all_led_witness :
  let led :=
    JArray [JObject [("id", JString "10129"); ("name", JString "Data analysis");
                     ("lead", JObject [("accountId", JString "5d9b");
                                       ("displayName", JString "Dana")])];
            JObject [("id", JString "10130"); ("name", JString "Backend");
                     ("lead", JObject [("accountId", JString "70ac");
                                       ("displayName", JString "Lee")])]] in
  let network := fun _ : UrlValue => Replied (mkResponse 200 "OK" (Some led)) in
  let config := mkConfig "https://xxx.atlassian.net" "XXX" in
  getJiraComponentsWithoutLead example_array_limit example_new_URL network
    "https://xxx.atlassian.net" "XXX" [] []
  = (Ok [], [] ++ [components_url config]) /\
  (forall componentIds order' log',
     exists sent,
       snd (getIssuesByComponents example_array_limit example_new_URL network
              config componentIds order' log')
       = log'
         ++ UrlObject (search_url example_new_URL config componentIds) :: sent).
Proof.
  intros led network config.
  apply (no_search_when_all_led example_array_limit example_new_URL network
           "https://xxx.atlassian.net" "XXX" [] []
           (mkResponse 200 "OK" (Some led)) led
           [Component.mk "10129" "Data analysis" (Some (Lead.mk "5d9b" "Dana"));
            Component.mk "10130" "Backend" (Some (Lead.mk "70ac" "Lee"))]).
  - reflexivity.
  - reflexivity.
  - reflexivity.
  - reflexivity.
  - intros c [<- | [<- | []]]; discriminate.
Defined.

Lemma single_page_witness :
  let issue :=
    JObject [("id", JString "10000");
             ("fields",
              JObject [("components",
                        JArray [JObject [("id", JString "C1");
                                         ("name", JString "Backend")]])])] in
  let page :=
    JObject [("startAt", JNumber (of_Z 0)); ("maxResults", JNumber (of_Z 100));
             ("total", JNumber (of_Z 1)); ("issues", JArray [issue])] in
  let network :=
    fun _ : UrlValue => Replied (mkResponse 200 "OK" (Some page)) in
  let config := mkConfig "https://xxx.atlassian.net" "XYZ" in
  getIssuesByComponents example_array_limit example_new_URL network config
    ["C1"] [] []
  = (Ok [Issue.mk "10000" (Fields.mk [IssueComponent.mk "C1" "Backend"])],
     [] ++ [UrlObject (search_url example_new_URL config ["C1"])]).
Proof.
  intros issue page network config.
  apply (single_page example_array_limit example_new_URL network config
           ["C1"] [] []
           (mkResponse 200 "OK" (Some page)) page
           (IssuePage.mk (of_Z 0) (of_Z 100) (of_Z 1)
              [Issue.mk "10000" (Fields.mk [IssueComponent.mk "C1" "Backend"])])
           100 1).
  - reflexivity.
  - reflexivity.
  - reflexivity.
  - reflexivity.
  - apply is_integer_value_of_Z.
  - apply is_integer_value_of_Z.
  - unfold MAX_SAFE_INTEGER. lia.
  - lia.
  - unfold example_array_limit. lia.
Defined.

(** C9 as stated fails: a valid first page reporting [maxResults = 0]
    and [total = 0] has [maxResults >= total], and the operation throws
    the planner's [TypeError] after its one request. *)
Lemma single_page_zero_page_size :
  let page :=
    JObject [("startAt", JNumber (of_Z 0)); ("maxResults", JNumber (of_Z 0));
             ("total", JNumber (of_Z 0)); ("issues", JArray [])] in
  let network :=
    fun _ : UrlValue => Replied (mkResponse 200 "OK" (Some page)) in
  let config := mkConfig "https://xxx.atlassian.net" "XYZ" in
  parse GetIssuesByComponentsResponseSchema page
  = Ok (IssuePage.mk (of_Z 0) (of_Z 0) (of_Z 0) []) /\
  number_leb (of_Z 0) (of_Z 0) = true /\
  getIssuesByComponents example_array_limit example_new_URL network config
    ["C1"] [] []
  = (Err (TypeError "Option 'pageSize' needs to be a positive safe integer."),
     [UrlObject (search_url example_new_URL config ["C1"])]).
Proof. repeat split. Qed.

Lemma paginated_fetch_witness :
  let network := paginated_mock 2 example_issues in
  let ids := ["a"; "b"; "c"] in
  snd (getIssuesByComponents example_array_limit example_new_URL network
         example_config ids [2; 0; 1]%nat [])
  = [] ++ map UrlObject
            [request_url example_new_URL example_config ids "0" "10000";
             request_url example_new_URL example_config ids "2" "2";
             request_url example_new_URL example_config ids "4" "2";
             request_url example_new_URL example_config ids "6" "2"] /\
  fst (getIssuesByComponents example_array_limit example_new_URL network
         example_config ids [2; 0; 1]%nat [])
  = Ok validated_issues.
Proof.
  intros network ids.
  pose (first := issue_page 0 2 8 (firstn 2 example_issues)).
  pose (data := IssuePage.mk (of_Z 0) (of_Z 2) (of_Z 8)
                             (firstn 2 validated_issues)).
  destruct (paginated_fetch example_array_limit example_new_URL network
              example_config ids [2; 0; 1]%nat []
              (mkResponse 200 "OK" (Some first)) first data
              eq_refl eq_refl eq_refl eq_refl
              (is_integer_value_of_Z 8) (is_integer_value_of_Z 2)
              ltac:(unfold example_array_limit; lia))
    as (Hlog & _ & Hall).
  split; [exact Hlog |].
  apply Hall.
  - reflexivity.
  - reflexivity.
  - eexists _, _, _. repeat split.
  - eexists _, _, _. repeat split.
  - eexists _, _, _. repeat split.
Defined.

(** C8 does not hold of the code: the callbacks of the fan-out share
    the one URL object and each of them writes into it. After a first
    page with [maxResults = 2] and [total = 6] there are a second and a
    third page to fetch. The callback of the second page writes
    [startAt=2] into the object and sends its request; before the reply
    is there, the callback of the third page has written [startAt=4]
    into the same object, and this is the object the callback of the
    second page has in hand when it resumes. *)
Lemma fan_out_overwrites_shared_url :
  let network := three_page_mock bad_request last_page in
  let url := search_url example_new_URL example_config ["a"] in
  let page2 := request_url example_new_URL example_config ["a"] "2" "2" in
  let page4 := request_url example_new_URL example_config ["a"] "4" "2" in
  createPaginationChunks example_array_limit (of_Z 2) (of_Z 6)
  = Ok [mkWindow 0 2; mkWindow 2 2; mkWindow 4 2] /\
  page_request network url (mkWindow 2 2) []
  = (Ok (page2, Replied bad_request), [UrlObject page2]) /\
  map_page_requests network url [mkWindow 2 2; mkWindow 4 2] []
  = (Ok (page4, [Replied bad_request; Replied last_page]),
     [UrlObject page2; UrlObject page4]) /\
  page4 <> page2.
Proof.
  intros network url page2 page4.
  split; [reflexivity |]. split; [reflexivity |]. split; [reflexivity |].
  discriminate.
Qed.

(** C3 does not hold of the code. The first page announces three pages;
    the request for the page at 2 is answered [400 Bad Request] and
    the one for the page at 4 is served. The operation fails with a
    [JiraResponseError] that has the status and the status text of the
    refused request, and the url of the other one, the request for the
    page at 4. And when the page at 2 is answered 200 with a body that
    is not JSON, the operation fails with the error of the HTTP layer,
    which is no [ZodError]. *)
Lemma refused_page_names_last_url :
  let page0 := request_url example_new_URL example_config ["a"] "0" "10000" in
  let page2 := request_url example_new_URL example_config ["a"] "2" "2" in
  let page4 := request_url example_new_URL example_config ["a"] "4" "2" in
  (let network := three_page_mock bad_request last_page in
   network (UrlObject page2) = Replied bad_request /\
   network (UrlObject page4) = Replied last_page /\
   status bad_request = 400 /\ status last_page = 200 /\
   page4 <> page2 /\
   getIssuesByComponents example_array_limit example_new_URL network
     example_config ["a"] [] []
   = (Err (JiraResponseError (UrlObject page4) 400 "Bad Request"),
      [UrlObject page0; UrlObject page2; UrlObject page4])) /\
  (let network := three_page_mock not_json last_page in
   network (UrlObject page2) = Replied not_json /\
   status not_json = 200 /\ body not_json = None /\
   exists message,
     getIssuesByComponents example_array_limit example_new_URL network
       example_config ["a"] [] []
     = (Err (TransportError message),
        [UrlObject page0; UrlObject page2; UrlObject page4])).
Proof.
  intros page0 page2 page4. split.
  - intros network. repeat split. discriminate.
  - intros network. repeat split.
    exists "invalid json response body". reflexivity.
Qed.

Lemma page_failures_witness :
  let network := three_page_mock bad_request last_page in
  nth_error
    (map (fun page =>
            page_resume
              (List.last
                 (page_urls (search_url example_new_URL example_config ["a"])
                            [mkWindow 2 2; mkWindow 4 2])
                 (search_url example_new_URL example_config ["a"]))
              (network (UrlObject page)))
         (page_urls (search_url example_new_URL example_config ["a"])
                    [mkWindow 2 2; mkWindow 4 2])) 0
  = Some (Err (JiraResponseError
                 (UrlObject
                    (request_url example_new_URL example_config ["a"] "4" "2"))
                 400 "Bad Request")) /\
  (exists i e,
     fst (getIssuesByComponents example_array_limit example_new_URL network
            example_config ["a"] [1%nat] [])
     = Err e /\
     nth_error
       (map (fun page =>
               page_resume
                 (List.last
                    (page_urls (search_url example_new_URL example_config ["a"])
                               [mkWindow 2 2; mkWindow 4 2])
                    (search_url example_new_URL example_config ["a"]))
                 (network (UrlObject page)))
            (page_urls (search_url example_new_URL example_config ["a"])
                       [mkWindow 2 2; mkWindow 4 2])) i
     = Some (Err e)).
Proof.
  intros network.
  destruct (page_failures example_array_limit example_new_URL network
              example_config ["a"] [1%nat] [])
    as (_ & _ & H).
  pose (first := issue_page 0 2 6 (firstn 2 example_issues)).
  pose (data := IssuePage.mk (of_Z 0) (of_Z 2) (of_Z 6)
                             (firstn 2 validated_issues)).
  destruct (H (mkResponse 200 "OK" (Some first)) first data
              [mkWindow 0 2; mkWindow 2 2; mkWindow 4 2]
              eq_refl eq_refl eq_refl eq_refl eq_refl) as [Hkind Hfail].
  split.
  - destruct (Hkind 0%nat
                (request_url example_new_URL example_config ["a"] "2" "2")
                bad_request eq_refl eq_refl) as [H400 _].
    exact (H400 ltac:(discriminate)).
  - destruct (Hfail 0%nat
                (JiraResponseError
                   (UrlObject
                      (request_url example_new_URL example_config ["a"] "4" "2"))
                   400 "Bad Request") eq_refl)
      as (i & e & Hrun & Hi & _).
    exists i, e. split; [exact Hrun | exact Hi].
Defined.

(** The failure observed first decides: the page at 2 is answered 400,
    the page at 4 is answered 200 with a body of the wrong shape and
    completes first; the operation fails with the [ZodError] of the
    latter. *)
Example first_failure_in_completion_order :
  let network := three_page_mock bad_request wrong_shape in
  network (UrlObject (request_url example_new_URL example_config ["a"] "2" "2"))
  = Replied bad_request /\
  status bad_request <> 200 /\
  fst (getIssuesByComponents example_array_limit example_new_URL network
         example_config ["a"] [1%nat] [])
  = Err (ZodError [mkIssue "number" "undefined" [Key "startAt"];
                   mkIssue "number" "undefined" [Key "maxResults"];
                   mkIssue "number" "undefined" [Key "total"];
                   mkIssue "array" "undefined" [Key "issues"]]).
Proof. repeat split. discriminate. Qed.

Lemma report_counts_witness :
  let network :=
    single_page_mock (JArray [component_C1; component_C2])
                     [example_issue "10600" "C1" "Backend";
                      example_issue "10601" "C1" "Backend"] in
  let issues := [validated_issue "10600" "C1" "Backend";
                 validated_issue "10601" "C1" "Backend"] in
  getJiraComponentsWithoutLead example_array_limit example_new_URL network
    "https://xxx.atlassian.net" "XYZ" [] []
  = (Ok [Entry.mk "C1" "Backend" (count_issues_referencing "C1" issues)],
     [components_url example_config;
      UrlObject (search_url example_new_URL example_config ["C1"])])
  /\
  getJiraComponentsWithoutLead example_array_limit example_new_URL network
    "https://xxx.atlassian.net" "XYZ" [] []
  = (Ok [Entry.mk "C1" "Backend" 2],
     [components_url example_config;
      UrlObject (search_url example_new_URL example_config ["C1"])]).
Proof.
  intros network issues.
  destruct (report_counts example_array_limit example_new_URL network
              "https://xxx.atlassian.net" "XYZ" [] []
              [Component.mk "C1" "Backend" None;
               Component.mk "C2" "Frontend" (Some (Lead.mk "5d9b" "Dana"))]
              [components_url example_config] eq_refl) as [_ H].
  destruct (H issues
              [components_url example_config;
               UrlObject (search_url example_new_URL example_config ["C1"])]
              ltac:(simpl; discriminate) eq_refl) as (_ & Hissues & Htwo).
  split.
  - apply Hissues. intros issue [<- | [<- | []]];
      (apply List.NoDup_cons; [intros [] | apply List.NoDup_nil]).
  - apply (Htwo (Component.mk "C1" "Backend" None)); reflexivity.
Defined.

(** C7 as stated fails: one issue lists component "C1" twice; a single
    issue references "C1" and the entry says 2. *)
Lemma duplicate_reference_counted_twice :
  let issue :=
    JObject [("id", JString "10600");
             ("fields",
              JObject [("components", JArray [component_C1; component_C1])])] in
  let network := single_page_mock (JArray [component_C1]) [issue] in
  exists issues log1 log2,
    getIssuesByComponents example_array_limit example_new_URL network
      example_config ["C1"] [] log1
    = (Ok issues, log2) /\
    count_issues_referencing "C1" issues = 1%nat /\
    fst (getJiraComponentsWithoutLead example_array_limit example_new_URL
           network "https://xxx.atlassian.net" "XYZ" [] [])
    = Ok [Entry.mk "C1" "Backend" 2].
Proof.
  intros issue network. eexists _, [components_url example_config], _.
  split; [reflexivity |]. split; reflexivity.
Qed.

Lemma planner_rejects_unsafe_witness :
  (exists message,
     createPaginationChunks example_array_limit (of_Z (2 ^ 53)) (of_Z 1)
     = Err (TypeError message)) /\
  (exists message,
     createPaginationChunks example_array_limit (of_Z 1) (of_Z (2 ^ 53))
     = Err (TypeError message)).
Proof.
  apply (planner_rejects_unsafe example_array_limit (of_Z (2 ^ 53)) (of_Z 1)).
  right. right. exists (2 ^ 53). split.
  - apply is_integer_value_of_Z.
  - unfold MAX_SAFE_INTEGER. simpl. lia.
Defined.

Lemma planner_success_contract_witness :
  exists P T,
    is_integer_value (of_Z 10) P /\ is_integer_value (of_Z 25) T /\
    0 < P <= MAX_SAFE_INTEGER /\ 0 <= T <= MAX_SAFE_INTEGER /\
    Z.of_nat (length [mkWindow 0 10; mkWindow 10 10; mkWindow 20 5])
    <= MAX_ARRAY_LENGTH /\
    (forall i w,
       nth_error [mkWindow 0 10; mkWindow 10 10; mkWindow 20 5] i = Some w ->
       startAt w = Z.of_nat i * P /\
       1 <= pageSize w <= P /\
       startAt w + pageSize w <= T).
Proof.
  apply (planner_success_contract example_array_limit (of_Z 10) (of_Z 25)).
  reflexivity.
Defined.

Lemma planner_divisible_total_witness :
  createPaginationChunks example_array_limit (of_Z 2) (of_Z 8)
  = Ok (map (fun index => mkWindow (index * 2) 2) (indices 4)).
Proof.
  apply (planner_divisible_total example_array_limit (of_Z 2) (of_Z 8) 2 4).
  - apply is_integer_value_of_Z.
  - apply (is_integer_value_of_Z 8).
  - unfold MAX_SAFE_INTEGER. lia.
  - lia.
  - unfold MAX_SAFE_INTEGER. lia.
  - unfold longest_array, MAX_ARRAY_LENGTH, example_array_limit. lia.
Defined.

Lemma planner_single_window_witness :
  createPaginationChunks example_array_limit (of_Z 100) (of_Z 7) = Ok
      [mkWindow 0 7].
Proof.
  apply (planner_single_window example_array_limit (of_Z 100) (of_Z 7) 100 7).
  - apply is_integer_value_of_Z.
  - apply is_integer_value_of_Z.
  - unfold MAX_SAFE_INTEGER. lia.
  - lia.
  - unfold longest_array, MAX_ARRAY_LENGTH, example_array_limit. lia.
Defined.

Lemma getComponents_round_trip_witness :
  let components :=
    [Component.mk "10128" "Synchronization" None;
     Component.mk "10129" "Data analysis" (Some (Lead.mk "5d9b" "Dana"))] in
  getComponents
    (fun _ => Replied (mkResponse 200 "OK"
                         (Some (JArray (map encode_component components)))))
    example_config []
  = (Ok components, [] ++ [components_url example_config]).
Proof.
  intros components.
  apply (getComponents_round_trip _ example_config []
           (mkResponse 200 "OK"
            (Some (JArray (map encode_component components))))
           components); reflexivity.
Defined.

Lemma issue_page_round_trip_witness :
  parse GetIssuesByComponentsResponseSchema
    (encode_page (IssuePage.mk (of_Z 0) (of_Z 2) (of_Z 8)
                               (firstn 2 validated_issues)))
  = Ok (IssuePage.mk (of_Z 0) (of_Z 2) (of_Z 8) (firstn 2 validated_issues)).
Proof.
  apply issue_page_round_trip; discriminate.
Defined.

Lemma getComponents_ignores_other_keys_witness :
  getComponents
    (fun _ => Replied (mkResponse 200 "OK" (Some (JArray [component_C1]))))
    example_config []
  = getComponents
      (fun _ => Replied
         (mkResponse 200 "OK"
            (Some (JArray
                   [JObject [("self", JString "https://xxx.atlassian.net");
                                    ("id", JString "C1");
                                    ("description", JNull);
                                    ("name", JString "Backend");
                                    ("assigneeType", JString
                                     "PROJECT_DEFAULT")]]))))
      example_config [].
Proof.
  eapply (getComponents_ignores_other_keys _ _ example_config []
            (mkResponse 200 "OK" _) (mkResponse 200 "OK" _));
    try reflexivity.
  constructor; [| constructor].
  eexists _, _. repeat split.
Defined.

Lemma getComponents_null_lead_witness :
  exists issues,
    issues <> [] /\
    getComponents
      (fun _ => Replied
         (mkResponse 200 "OK"
            (Some (JArray [component_C2;
                           JObject [("id", JString "C3");
                                    ("name", JString "Docs");
                                    ("lead", JNull)]]))))
      example_config []
    = (Err (ZodError issues), [] ++ [components_url example_config]).
Proof.
  eapply (getComponents_null_lead _ example_config []
            (mkResponse 200 "OK" _) _
            [("id", JString "C3"); ("name", JString "Docs"); ("lead", JNull)]);
    try reflexivity.
  right. left. reflexivity.
Defined.

Lemma getComponents_single_request_witness :
  fst (getComponents (fun _ => Unreachable "getaddrinfo ENOTFOUND")
                     example_config [])
  = Err (TransportError "getaddrinfo ENOTFOUND")
  /\
  exists message,
    fst (getComponents (fun _ => Replied (mkResponse 200 "OK" None))
                       example_config [])
    = Err (TransportError message).
Proof.
  split.
  - apply (proj1 (proj2 (getComponents_single_request
                           (fun _ => Unreachable "getaddrinfo ENOTFOUND")
                           example_config []))).
    reflexivity.
  - apply (proj2 (proj2 (getComponents_single_request
                           (fun _ => Replied (mkResponse 200 "OK" None))
                           example_config []))
             (mkResponse 200 "OK" None)); reflexivity.
Defined.

Lemma first_page_not_plannable_witness :
  let page := issue_page 0 (-1) 3 [] in
  exists message,
    getIssuesByComponents example_array_limit example_new_URL
      (fun _ => Replied (mkResponse 200 "OK" (Some page)))
      example_config ["C1"] [] []
    = (Err (TypeError message),
       [] ++ [UrlObject (search_url example_new_URL example_config ["C1"])]).
Proof.
  intros page.
  apply (first_page_not_plannable example_array_limit example_new_URL
           (fun _ => Replied (mkResponse 200 "OK" (Some page)))
           example_config ["C1"] [] []
           (mkResponse 200 "OK" (Some page)) page
           (IssuePage.mk (of_Z 0) (of_Z (-1)) (of_Z 3) []));
    try reflexivity.
  right. left. reflexivity.
Defined.

Lemma requests_decided_by_first_reply_witness :
  snd (getIssuesByComponents example_array_limit example_new_URL
         (three_page_mock bad_request wrong_shape)
         example_config ["a"] [1%nat] [])
  = snd (getIssuesByComponents example_array_limit example_new_URL
           (three_page_mock last_page last_page)
           example_config ["a"] [] []).
Proof.
  apply (requests_decided_by_first_reply example_array_limit example_new_URL).
  reflexivity.
Defined.

Lemma request_count_witness :
  Z.of_nat (length (snd (getIssuesByComponents example_array_limit
                           example_new_URL (paginated_mock 2 example_issues)
                           example_config ["a"] [] [])))
  = Z.of_nat (length (@nil UrlValue)) + Z.max 1 4 /\
  (exists message,
     getIssuesByComponents example_array_limit example_new_URL
       (fun _ => Replied (mkResponse 200 "OK"
                            (Some (issue_page 0 2 (2 ^ 22) []))))
       example_config ["a"] [] []
     = (Err (RangeError message),
        [] ++ [UrlObject (search_url example_new_URL example_config ["a"])])).
Proof.
  assert (H2 : 0 < 2 <= MAX_SAFE_INTEGER) by (unfold MAX_SAFE_INTEGER; lia).
  assert (H8 : 0 <= 8 <= MAX_SAFE_INTEGER) by (unfold MAX_SAFE_INTEGER; lia).
  assert (Hbig : 0 <= 2 ^ 22 <= MAX_SAFE_INTEGER)
    by (unfold MAX_SAFE_INTEGER; lia).
  split.
  - apply (request_count example_array_limit example_new_URL
             (paginated_mock 2 example_issues) example_config ["a"] [] []
             (mkResponse 200 "OK"
                (Some (issue_page 0 2 8 (firstn 2 example_issues))))
             (issue_page 0 2 8 (firstn 2 example_issues))
             (IssuePage.mk (of_Z 0) (of_Z 2) (of_Z 8)
                           (firstn 2 validated_issues))
             2 8 4 eq_refl eq_refl eq_refl eq_refl
             (is_integer_value_of_Z 2) (is_integer_value_of_Z 8) H2 H8
             ltac:(lia)).
    unfold longest_array, MAX_ARRAY_LENGTH, example_array_limit. lia.
  - apply (request_count example_array_limit example_new_URL
             (fun _ => Replied (mkResponse 200 "OK"
                                  (Some (issue_page 0 2 (2 ^ 22) []))))
             example_config ["a"] [] []
             (mkResponse 200 "OK" (Some (issue_page 0 2 (2 ^ 22) [])))
             (issue_page 0 2 (2 ^ 22) [])
             (IssuePage.mk (of_Z 0) (of_Z 2) (of_Z (2 ^ 22)) [])
             2 (2 ^ 22) (2 ^ 21) eq_refl eq_refl eq_refl eq_refl
             (is_integer_value_of_Z 2) (is_integer_value_of_Z (2 ^ 22)) H2 Hbig
             ltac:(lia)).
    unfold longest_array, MAX_ARRAY_LENGTH, example_array_limit. lia.
Defined.


Lemma outcome_independent_of_order_witness :
  getIssuesByComponents example_array_limit example_new_URL
    (paginated_mock 2 example_issues) example_config ["a"] [2; 1; 0]%nat []
  = getIssuesByComponents example_array_limit example_new_URL
      (paginated_mock 2 example_issues) example_config ["a"] [] []
  /\
  exists e',
    fst (getIssuesByComponents example_array_limit example_new_URL
           (three_page_mock bad_request wrong_shape)
           example_config ["a"] [] [])
    = Err e'.
Proof.
  split.
  - apply (proj1
             (outcome_independent_of_order example_array_limit example_new_URL
                (paginated_mock 2 example_issues) example_config ["a"]
                [] [2; 1; 0]%nat []) validated_issues).
    reflexivity.
  - apply (proj2
             (outcome_independent_of_order example_array_limit example_new_URL
                (three_page_mock bad_request wrong_shape) example_config
                ["a"] [1%nat] [] [])
             (ZodError [mkIssue "number" "undefined" [Key "startAt"];
                        mkIssue "number" "undefined" [Key "maxResults"];
                        mkIssue "number" "undefined" [Key "total"];
                        mkIssue "array" "undefined" [Key "issues"]])).
    reflexivity.
Defined.

Lemma JiraResponseError_names_last_request_witness :
  400 <> 200 /\
  exists sent,
    snd (getIssuesByComponents example_array_limit example_new_URL
           (three_page_mock bad_request last_page)
           example_config ["a"] [] [])
    = sent
      ++ [UrlObject (request_url example_new_URL example_config ["a"] "4" "2")].
Proof.
  apply (JiraResponseError_names_last_request
           example_array_limit example_new_URL
           (three_page_mock bad_request last_page) example_config ["a"] [] []
           (UrlObject
              (request_url example_new_URL example_config ["a"] "4" "2"))
           400 "Bad Request").
  reflexivity.
Defined.

Lemma refused_pages_fail_the_fetch_witness :
  exists u s m,
    fst (getIssuesByComponents example_array_limit example_new_URL
           (three_page_mock bad_request bad_request)
           example_config ["a"; "b"; "c"] [1; 0]%nat [])
    = Err (JiraResponseError u s m) /\ s <> 200.
Proof.
  apply (refused_pages_fail_the_fetch example_array_limit example_new_URL
           (three_page_mock bad_request bad_request)
           example_config ["a"; "b"; "c"] [1; 0]%nat []
           (mkResponse 200 "OK"
              (Some (issue_page 0 2 6 (firstn 2 example_issues))))
           (issue_page 0 2 6 (firstn 2 example_issues))
           (IssuePage.mk (of_Z 0) (of_Z 2) (of_Z 6) (firstn 2 validated_issues))
           [mkWindow 0 2; mkWindow 2 2; mkWindow 4 2]);
    try reflexivity.
  - discriminate.
  - intros page [<- | [<- | []]]; exists bad_request;
      (split; [reflexivity | discriminate]).
Defined.

(** At a tracker whose base URL comes with a parameter of its own, the
    request for the page at 6 has that parameter and the five of the
    search, and differs from the first request in [startAt] and
    [maxResults] only. *)
Lemma requests_differ_in_window_only_witness :
  let u := request_url gateway_new_URL example_config ["a"] "6" "2" in
  let first := search_url gateway_new_URL example_config ["a"] in
  origin_and_path u = origin_and_path first /\
  param_names u = param_names first /\
  (forall k,
     In k ["startAt"; "maxResults"; "validateQuery"; "fields"; "jql"] ->
     occurrences k (param_names u) = 1%nat) /\
  (forall k, k <> "startAt" -> k <> "maxResults" ->
     params_get k (searchParams u) = params_get k (searchParams first)) /\
  params_get "validateQuery" (searchParams u) = Some "strict" /\
  params_get "fields" (searchParams u) = Some "id,components" /\
  params_get "jql" (searchParams u) = Some (jql_of example_config ["a"]).
Proof.
  intros u first.
  apply (requests_differ_in_window_only example_array_limit gateway_new_URL
           (paginated_mock 2 example_issues) example_config ["a"] [] [] u).
  vm_compute. right. right. right. left. reflexivity.
Defined.

Example gateway_request_parameters :
  param_names (request_url gateway_new_URL example_config ["a"] "6" "2")
  = ["os_authType"; "startAt"; "maxResults"; "validateQuery"; "fields"; "jql"].
Proof. reflexivity. Qed.

Lemma aggregation_propagates_errors_witness :
  getJiraComponentsWithoutLead example_array_limit example_new_URL
    (fun _ => Replied bad_request)
    "https://xxx.atlassian.net" "XYZ" [] []
  = (Err (JiraResponseError (components_url example_config) 400 "Bad Request"),
     [] ++ [components_url example_config])
  /\
  getJiraComponentsWithoutLead example_array_limit example_new_URL
    (fun request =>
       match request with
       | UrlString _ =>
           Replied (mkResponse 200 "OK" (Some (JArray [component_C1])))
       | UrlObject _ => Replied bad_request
       end)
    "https://xxx.atlassian.net" "XYZ" [] []
  = (Err (JiraResponseError
            (UrlObject (search_url example_new_URL example_config ["C1"]))
            400 "Bad Request"),
     [components_url example_config;
      UrlObject (search_url example_new_URL example_config ["C1"])]).
Proof.
  split.
  - apply (proj1
             (aggregation_propagates_errors example_array_limit example_new_URL
                (fun _ => Replied bad_request)
                "https://xxx.atlassian.net" "XYZ" [] [])
             _ [components_url example_config]).
    reflexivity.
  - apply (proj2
             (aggregation_propagates_errors example_array_limit example_new_URL
                _ "https://xxx.atlassian.net" "XYZ" [] [])
             [Component.mk "C1" "Backend" None]
             [components_url example_config]).
    + reflexivity.
    + discriminate.
    + reflexivity.
Defined.

Lemma report_ignores_issue_order_witness :
  report [Component.mk "10131" "Templates" None] validated_issues
  = report [Component.mk "10131" "Templates" None] (rev validated_issues).
Proof.
  apply report_ignores_issue_order. apply Permutation_rev.
Defined.

Lemma search_names_components_without_lead_witness :
  let network :=
    single_page_mock (JArray [component_C1; component_C2])
                     (firstn 2 example_issues) in
  exists pages,
    snd (getJiraComponentsWithoutLead example_array_limit example_new_URL
           network "https://xxx.atlassian.net" "XYZ" [] [])
    = [components_url example_config]
      ++ UrlObject (search_url example_new_URL example_config ["C1"])
         :: map UrlObject pages /\
    ["C1"] <> [] /\
    forall u,
      u = search_url example_new_URL example_config ["C1"] \/ In u pages ->
      origin_and_path u
      = origin_and_path
          (example_new_URL
             ("https://xxx.atlassian.net" +:+ "/rest/api/3/search")) /\
      params_get "jql" (searchParams u) = Some (jql_of example_config ["C1"]).
Proof.
  intros network.
  apply (search_names_components_without_lead
           example_array_limit example_new_URL network
           "https://xxx.atlassian.net" "XYZ" [] []
           [Component.mk "C1" "Backend" None;
            Component.mk "C2" "Frontend" (Some (Lead.mk "5d9b" "Dana"))]
           [components_url example_config]).
  - reflexivity.
  - discriminate.
Defined.

Lemma counts_map_holds_referenced_ids_witness :
  issuesCountByComponentId validated_issues !! "10131" = Some 5%nat /\
  issuesCountByComponentId validated_issues !! "10129" = None.
Proof.
  split.
  - exact (proj1 (counts_map_holds_referenced_ids validated_issues "10131")).
  - apply (proj2 (counts_map_holds_referenced_ids validated_issues "10129")).
    intros issue Hin Hid. unfold validated_issues in Hin. simpl in Hin.
    repeat (destruct Hin as [<- | Hin];
            [simpl in Hid; destruct Hid as [Hid | []]; discriminate |]).
    destruct Hin.
Defined.

Lemma first_request_transport_errors_witness :
  getIssuesByComponents example_array_limit example_new_URL
    (fun _ => Unreachable "connect ECONNREFUSED")
    example_config ["C1"] [] []
  = (Err (TransportError "connect ECONNREFUSED"),
     [] ++ [UrlObject (search_url example_new_URL example_config ["C1"])])
  /\
  exists message,
    getIssuesByComponents example_array_limit example_new_URL
      (fun _ => Replied (mkResponse 200 "OK" None))
      example_config ["C1"] [] []
    = (Err (TransportError message),
       [] ++ [UrlObject (search_url example_new_URL example_config ["C1"])]).
Proof.
  split.
  - apply (proj1
             (first_request_transport_errors example_array_limit example_new_URL
                (fun _ => Unreachable "connect ECONNREFUSED")
                example_config ["C1"] [] [])).
    reflexivity.
  - apply (proj2
             (first_request_transport_errors example_array_limit example_new_URL
                (fun _ => Replied (mkResponse 200 "OK" None))
                example_config ["C1"] [] [])
             (mkResponse 200 "OK" None)); reflexivity.
Defined.
